(** * Client Records API: a shallow embedding of the two server variants

    The repository holds two variants of one Express server over a single
    [clients] table:

    - the pg variant ([src/server.js]) talks to PostgreSQL through
      [pool.query] with the SQL statements written in the handlers;
    - the supabase variant ([src/unnamed/part_000]) talks to the same kind
      of table through the supabase-js query builder.

    Handlers are embedded in a small state-and-exception monad over a
    [World] holding the table, the console and an oracle which decides,
    for each storage call, whether the environment makes it fail and what
    the database clock reads. The world also keeps the history of the
    storage calls which failed; no handler reads it.

    Conventions of the model:
    - JavaScript numbers are integers in [Z] plus [NaN]; this is exact for
      magnitudes below 2^53;
    - JSON values are limited to null, booleans, integers and strings;
    - the failures of the database which depend on nothing visible in the
      repository (connectivity, coercion of a parameter to its column
      type, length limits) are the oracle's faults; the failures visible
      in the SQL of the source (the NOT NULL column, the integer key, the
      sign of OFFSET) are computed. *)

From Stdlib Require Import ZArith Ascii String List Lia.
From Stdlib Require Import Decimal DecimalString DecimalPos.
From stdpp Require Import base option list sorting gmap strings.

Local Open Scope string_scope.
Local Open Scope Z_scope.

(** ** JavaScript primitives used by the handlers *)

Module JS.

(** A number as the handlers see it: an integer or NaN. *)
Inductive Num := NaN | Int (z : Z).

Definition code (c : ascii) : Z := Z.of_nat (nat_of_ascii c).

(** StrWhiteSpaceChar, restricted to one-byte characters. *)
Definition is_space (c : ascii) : bool :=
  let n := code c in
  ((9 <=? n) && (n <=? 13)) || (n =? 32).

Fixpoint trim_start (s : string) : string :=
  match s with
  | String c s' => if is_space c then trim_start s' else s
  | EmptyString => s
  end.

Definition digit_value (c : ascii) : option Z :=
  let n := code c in
  if (48 <=? n) && (n <=? 57) then Some (n - 48)
  else if (97 <=? n) && (n <=? 122) then Some (n - 87)
  else if (65 <=? n) && (n <=? 90) then Some (n - 55)
  else None.

(** The longest prefix of radix-[R] digits: its value ([None] when the
    prefix is empty) and the rest of the string. *)
Fixpoint scan_digits (R : Z) (s : string) (acc : Z) (seen : bool)
  : option Z * string :=
  let stop := (if seen then Some acc else None, s) in
  match s with
  | String c s' =>
      match digit_value c with
      | Some d => if d <? R then scan_digits R s' (acc * R + d) true else stop
      | None => stop
      end
  | EmptyString => stop
  end.

Definition strip_sign (s : string) : Z * string :=
  match s with
  | String "-" s' => (-1, s')
  | String "+" s' => (1, s')
  | _ => (1, s)
  end.

Definition strip_hex_prefix (s : string) : Z * string :=
  match s with
  | String "0" (String "x" s') => (16, s')
  | String "0" (String "X" s') => (16, s')
  | _ => (10, s)
  end.

(** [parseInt(string)] with the radix left undefined. *)
Definition parseInt_string (s : string) : Num :=
  let '(sign, s1) := strip_sign (trim_start s) in
  let '(R, s2) := strip_hex_prefix s1 in
  match fst (scan_digits R s2 0 false) with
  | Some n => Int (sign * n)
  | None => NaN
  end.

(** [parseInt(v)] for a value which is a string or undefined:
    undefined is first converted to the string "undefined". *)
Definition parseInt (v : option string) : Num :=
  match v with
  | Some s => parseInt_string s
  | None => parseInt_string "undefined"
  end.

(** [n || d] on numbers: NaN and 0 are falsy. *)
Definition or_default (n : Num) (d : Z) : Z :=
  match n with
  | Int z => if z =? 0 then d else z
  | NaN => d
  end.

(** [!s] for a value which is a string or undefined. *)
Definition falsy (v : option string) : bool :=
  match v with
  | None => true
  | Some EmptyString => true
  | Some _ => false
  end.

(** The ceiling of the quotient of integers [a] and positive [b]. *)
Definition ceil_div (a b : Z) : Z := - ((- a) / b).

(** [Math.ceil(a / b)] for a number [a] and a positive integer [b]. *)
Definition math_ceil_div (a : Num) (b : Z) : Num :=
  match a with
  | Int z => Int (ceil_div z b)
  | NaN => NaN
  end.

End JS.

(** ** Data model: the [clients] table *)

(** A JSON value of a request body, and the content of a nullable column
    ([JNull] is SQL NULL). *)
Inductive Json :=
| JNull
| JBool (b : bool)
| JNum (n : Z)
| JStr (s : string).

#[global] Instance Json_eq_dec : EqDecision Json.
Proof. solve_decision. Defined.

(** One row of the table created by [createTable]. Timestamps are
    readings of the database clock. *)
Record Client := mkClient {
  id : Z;
  full_name : Json;
  email : Json;
  phone : Json;
  location : Json;
  service_type : Json;
  serial_number : Json;
  price : Json;
  supporter : Json;
  has_bonus : Json;
  created_at : Z;
  updated_at : Z
}.

#[global] Instance Client_eq_dec : EqDecision Client.
Proof. solve_decision. Defined.

(** The nine columns written by the handlers, in the order of the
    destructuring of [req.body]. *)
Definition mutable_fields : list string :=
  ["full_name"; "email"; "phone"; "location"; "service_type";
   "serial_number"; "price"; "supporter"; "has_bonus"].

(** The columns assigned by the database itself. *)
Definition system_fields : list string := ["id"; "created_at"; "updated_at"].

(** The table and the state of its SERIAL sequence. *)
Record Db := mkDb {
  table : list Client;
  next_id : Z
}.

(** [WHERE id = n] on one row. *)
Definition has_id (n : Z) (c : Client) : bool := bool_decide (id c = n).

(** [ORDER BY created_at DESC] *)
Definition created_desc (a b : Client) : Prop := created_at b <= created_at a.

#[global] Instance created_desc_dec : RelDecision created_desc.
Proof. intros a b. unfold created_desc. apply _. Defined.

Definition order_by_created_at_desc (rows : list Client) : list Client :=
  merge_sort created_desc rows.

(** Output of a [bigint] as text, the form in which the driver hands the
    result of COUNT to the handler. *)
Definition int8_out (n : Z) : string := NilEmpty.string_of_int (Z.to_int n).

(** Input of an [integer] column from the text of a parameter: blanks,
    an optional sign, decimal digits, blanks; within the 32-bit range.
    This is the syntax every version of the database reads. A recent
    server also reads digits grouped by underscores and the prefixes 0x,
    0o and 0b, which are refused here: the answer to an ill-formed id
    is therefore stated of the [surely_malformed] ids, which no version
    reads. *)
Definition pg_int4_in (s : string) : option Z :=
  let '(sign, s1) := JS.strip_sign (JS.trim_start s) in
  match JS.scan_digits 10 s1 0 false with
  | (Some n, rest) =>
      match JS.trim_start rest with
      | EmptyString =>
          let v := sign * n in
          if (-2147483648 <=? v) && (v <=? 2147483647) then Some v else None
      | _ => None
      end
  | (None, _) => None
  end.

(** ** The world a handler runs in *)

(** What the environment decides for one storage call: a failure of its
    own, with its detail, and the reading of the database clock. *)
Record Env := mkEnv {
  fault : option string;
  now : Z
}.

Record World := mkWorld {
  db : Db;
  oracle : nat -> Env;
  calls : nat;                  (* storage calls issued so far *)
  console : list string;        (* lines written by console.error / warn *)
  failed_calls : list string    (* history: details of the failed calls *)
}.

Definition set_db (d : Db) (w : World) : World :=
  {| db := d; oracle := oracle w; calls := calls w; console := console w;
     failed_calls := failed_calls w |}.

Definition tick (w : World) : World :=
  {| db := db w; oracle := oracle w; calls := S (calls w); console := console w;
     failed_calls := failed_calls w |}.

Definition print (line : string) (w : World) : World :=
  {| db := db w; oracle := oracle w; calls := calls w;
     console := console w ++ [line]; failed_calls := failed_calls w |}.

Definition record_failure (detail : string) (w : World) : World :=
  {| db := db w; oracle := oracle w; calls := calls w; console := console w;
     failed_calls := failed_calls w ++ [detail] |}.

(** Computations which read and write the world and may throw an error
    carrying a message. *)
Definition M (A : Type) : Type := World -> (string + A) * World.

#[global] Instance M_ret : MRet M := fun A a w => (inr a, w).

#[global] Instance M_bind : MBind M := fun A B f m w =>
  match m w with
  | (inr a, w') => f a w'
  | (inl e, w') => (inl e, w')
  end.

Definition throw {A} (e : string) : M A := fun w => (inl e, w).

(** [try { m } catch (err) { h err.message }] *)
Definition try_catch {A} (m : M A) (h : string -> M A) : M A := fun w =>
  match m w with
  | (inr a, w') => (inr a, w')
  | (inl e, w') => h e w'
  end.

Definition console_error (prefix detail : string) : M unit := fun w =>
  (inr tt, print (prefix ++ " " ++ detail)%string w).

Definition console_warn (line : string) : M unit := fun w =>
  (inr tt, print line w).

(** ** Requests and responses *)

Inductive Route :=
| Health                          (* GET /api/health *)
| ListClients                     (* GET /api/clients *)
| GetClient (id : string)         (* GET /api/clients/:id *)
| CreateClient                    (* POST /api/clients *)
| UpdateClient (id : string)      (* PUT /api/clients/:id *)
| DeleteClient (id : string).     (* DELETE /api/clients/:id *)

Record Request := mkRequest {
  origin : option string;          (* req.headers.origin *)
  route : Route;
  query_page : option string;      (* req.query.page, a string or undefined *)
  body : gmap string Json          (* req.body *)
}.

(** The JSON documents the handlers send. A [client] which is [None] is
    the JavaScript value undefined. The timestamp of the health document,
    read from the clock of the process, is left out. *)
Inductive Body :=
| BError (error : string)                                 (* {error} *)
| BClient (c : Client)                                    (* a row *)
| BNull                                                   (* null *)
| BMessage (message : string) (client : option Client)    (* {message, client} *)
| BPage (data : list Client) (currentPage : Z) (totalPages totalClients : JS.Num)
| BData (data : option (list Client))                     (* {data} *)
| BHealth (message : string).                             (* {message, timestamp} *)

Record Response := mkResponse {
  status : Z;
  payload : Body
}.

(** [res.json(b)] and [res.status(s).json(b)] *)
Definition res_json (b : Body) : M Response := mret (mkResponse 200 b).
Definition res_status_json (s : Z) (b : Body) : M Response := mret (mkResponse s b).

(** ** CORS gate, common to both variants *)

(** The [origin] callback given to [cors]: the error it passes to its
    callback is thrown here, so that nothing after the gate runs. *)
Definition cors_origin (allowedOrigins : list string) (origin : option string)
  : M bool :=
  if JS.falsy origin then mret true
  else
    let o := default EmptyString origin in
    if bool_decide (o ∈ allowedOrigins) then mret true
    else
      _ ← console_warn ("❌ CORS blocked for origin: " ++ o)%string;
      throw "Not allowed by CORS".

(** ** The pg variant: [src/server.js] *)

Module Pg.

Definition allowedOrigins : list string :=
  ["http://localhost:3000"; "http://localhost:5173";
   "https://smart-broadband-3.vercel.app"].

(** A parameter of a query: undefined and null are both sent as NULL. *)
Definition param (v : option Json) : Json := default JNull v.

(** The nine parameters, from the destructuring of [req.body]. *)
Record Fields := mkFields {
  f_full_name : Json;
  f_email : Json;
  f_phone : Json;
  f_location : Json;
  f_service_type : Json;
  f_serial_number : Json;
  f_price : Json;
  f_supporter : Json;
  f_has_bonus : Json
}.

Definition fields_of_body (b : gmap string Json) : Fields :=
  {| f_full_name := param (b !! "full_name");
     f_email := param (b !! "email");
     f_phone := param (b !! "phone");
     f_location := param (b !! "location");
     f_service_type := param (b !! "service_type");
     f_serial_number := param (b !! "serial_number");
     f_price := param (b !! "price");
     f_supporter := param (b !! "supporter");
     f_has_bonus := param (b !! "has_bonus") |}.

(** A statement maps the table and the clock reading to rows or an
    error, and to the table it leaves. *)
Definition Stmt (A : Type) : Type := Db -> Z -> (string + A) * Db.

(** [pool.query]: the environment may make the call fail; otherwise the
    statement runs against the table. *)
Definition pool_query {A} (stmt : Stmt A) : M A := fun w =>
  let ev := oracle w (calls w) in
  match fault ev with
  | Some e => (inl e, record_failure e (tick w))
  | None =>
      match stmt (db w) (now ev) with
      | (inl e, d) => (inl e, record_failure e (set_db d (tick w)))
      | (inr a, d) => (inr a, set_db d (tick w))
      end
  end.

(** SELECT * FROM clients ORDER BY created_at DESC LIMIT $1 OFFSET $2 *)
Definition sql_select_page (limit offset : Z) : Stmt (list Client) := fun d _ =>
  if limit <? 0 then (inl "LIMIT must not be negative", d)
  else if offset <? 0 then (inl "OFFSET must not be negative", d)
  else if 9223372036854775807 <? offset then (inl "value out of range for type bigint", d)
  else
    (inr (take (Z.to_nat limit)
            (drop (Z.to_nat offset) (order_by_created_at_desc (table d)))), d).

(** SELECT COUNT( * ) FROM clients: the [count] of the single row. *)
Definition sql_count : Stmt string := fun d _ =>
  (inr (int8_out (Z.of_nat (length (table d)))), d).

(** SELECT * FROM clients WHERE id = $1 *)
Definition sql_select_by_id (idp : string) : Stmt (list Client) := fun d _ =>
  match pg_int4_in idp with
  | None => (inl "invalid input syntax for type integer", d)
  | Some n => (inr (filter (fun c => has_id n c = true) (table d)), d)
  end.

(** INSERT INTO clients (the nine columns) VALUES ($1..$9) RETURNING *.
    The sequence value drawn for [id] is spent even when the row is
    refused. *)
Definition sql_insert (f : Fields) : Stmt (list Client) := fun d t =>
  let c :=
    {| id := next_id d;
       full_name := f_full_name f; email := f_email f; phone := f_phone f;
       location := f_location f; service_type := f_service_type f;
       serial_number := f_serial_number f; price := f_price f;
       supporter := f_supporter f; has_bonus := f_has_bonus f;
       created_at := t; updated_at := t |} in
  match f_full_name f with
  | JNull =>
      (inl "null value in column full_name violates not-null constraint",
       {| table := table d; next_id := next_id d + 1 |})
  | _ => (inr [c], {| table := table d ++ [c]; next_id := next_id d + 1 |})
  end.

(** The SET list of the UPDATE, applied to one row. *)
Definition set_fields (f : Fields) (t : Z) (c : Client) : Client :=
  {| id := id c;
     full_name := f_full_name f; email := f_email f; phone := f_phone f;
     location := f_location f; service_type := f_service_type f;
     serial_number := f_serial_number f; price := f_price f;
     supporter := f_supporter f; has_bonus := f_has_bonus f;
     created_at := created_at c; updated_at := t |}.

(** UPDATE clients SET (the nine columns), updated_at=NOW()
    WHERE id=$10 RETURNING * *)
Definition sql_update (f : Fields) (idp : string) : Stmt (list Client) := fun d t =>
  match pg_int4_in idp with
  | None => (inl "invalid input syntax for type integer", d)
  | Some n =>
      let hit := filter (fun c => has_id n c = true) (table d) in
      match hit, f_full_name f with
      | _ :: _, JNull =>
          (inl "null value in column full_name violates not-null constraint", d)
      | _, _ =>
          (inr (set_fields f t <$> hit),
           {| table := (fun c => if has_id n c then set_fields f t c else c) <$> table d;
              next_id := next_id d |})
      end
  end.

(** DELETE FROM clients WHERE id=$1 RETURNING * *)
Definition sql_delete (idp : string) : Stmt (list Client) := fun d _ =>
  match pg_int4_in idp with
  | None => (inl "invalid input syntax for type integer", d)
  | Some n =>
      (inr (filter (fun c => has_id n c = true) (table d)),
       {| table := filter (fun c => has_id n c = false) (table d);
          next_id := next_id d |})
  end.

(** app.get("/api/clients") *)
Definition get_clients (req : Request) : M Response :=
  try_catch
    (let page := JS.or_default (JS.parseInt (query_page req)) 1 in
     let limit := 10 in
     let offset := (page - 1) * limit in
     rows ← pool_query (sql_select_page limit offset);
     count ← pool_query sql_count;
     let totalClients := JS.parseInt (Some count) in
     let totalPages := JS.math_ceil_div totalClients limit in
     res_json (BPage rows page totalPages totalClients))
    (fun err =>
       _ ← console_error "❌ Error fetching clients:" err;
       res_status_json 500 (BError "Failed to fetch clients")).

(** app.get("/api/clients/:id") *)
Definition get_client (idp : string) : M Response :=
  try_catch
    (rows ← pool_query (sql_select_by_id idp);
     match rows with
     | [] => res_status_json 404 (BError "Client not found")
     | c :: _ => res_json (BClient c)
     end)
    (fun err =>
       _ ← console_error "❌ Error fetching client:" err;
       res_status_json 500 (BError "Failed to fetch client")).

(** app.post("/api/clients") *)
Definition post_client (req : Request) : M Response :=
  try_catch
    (rows ← pool_query (sql_insert (fields_of_body (body req)));
     res_json (BMessage "✅ Client added successfully" (head rows)))
    (fun err =>
       _ ← console_error "❌ Error adding client:" err;
       res_status_json 500 (BError "Failed to add client")).

(** app.put("/api/clients/:id") *)
Definition put_client (idp : string) (req : Request) : M Response :=
  try_catch
    (rows ← pool_query (sql_update (fields_of_body (body req)) idp);
     match rows with
     | [] => res_status_json 404 (BError "Client not found")
     | c :: _ => res_json (BMessage "✅ Client updated successfully" (Some c))
     end)
    (fun err =>
       _ ← console_error "❌ Error updating client:" err;
       res_status_json 500 (BError "Failed to update client")).

(** app.delete("/api/clients/:id") *)
Definition delete_client (idp : string) : M Response :=
  try_catch
    (rows ← pool_query (sql_delete idp);
     match rows with
     | [] => res_status_json 404 (BError "Client not found")
     | c :: _ => res_json (BMessage "✅ Client deleted successfully" (Some c))
     end)
    (fun err =>
       _ ← console_error "❌ Error deleting client:" err;
       res_status_json 500 (BError "Failed to delete client")).

(** app.get("/api/health") *)
Definition health : M Response :=
  res_json (BHealth "✅ Smart Broadband Server is running!").

Definition handler (req : Request) : M Response :=
  match route req with
  | Health => health
  | ListClients => get_clients req
  | GetClient i => get_client i
  | CreateClient => post_client req
  | UpdateClient i => put_client i req
  | DeleteClient i => delete_client i
  end.

(** The application: the CORS gate was registered first, so it runs
    before the route's handler. *)
Definition app (req : Request) : M Response :=
  _ ← cors_origin allowedOrigins (origin req);
  handler req.

End Pg.

(** ** The supabase variant: [src/unnamed/part_000] *)

Module Supabase.

(** The object a query of the supabase client resolves to. *)
Record Result (A : Type) := mkResult {
  data : option A;
  error : option string
}.
Arguments mkResult {A} _ _.
Arguments data {A} _.
Arguments error {A} _.

(** The five queries the handlers build on [supabase.from('clients')].
    A query which throws stands for a rejected promise. *)
Class Client_API := {
  select_ordered : M (Result (list Client));
      (* .select('*').order('created_at', { ascending: false }) *)
  select_single : string -> M (Result Client);
      (* .select('*').eq('id', id).single() *)
  insert_rows : gmap string Json -> M (Result (list Client));
      (* .insert([clientData]) *)
  update_eq : gmap string Json -> string -> M (Result (list Client));
      (* .update(clientData).eq('id', id) *)
  delete_eq : string -> M (Result (list Client))
      (* .delete().eq('id', id) *)
}.

(** process.env.X || d *)
Definition env_or (v : option string) (d : string) : string :=
  if JS.falsy v then d else default d v.

Definition FRONTEND_URL (env : gmap string string) : string :=
  env_or (env !! "FRONTEND_URL") "http://localhost:5173".

Definition allowedOrigins (env : gmap string string) : list string :=
  ["http://localhost:3000"; "http://localhost:5173"; FRONTEND_URL env].

Section Handlers.
Context `{supabase : Client_API}.

(** [data[0]]: reading an index of null throws a TypeError. *)
Definition first_of (d : option (list Client)) : M (option Client) :=
  match d with
  | Some rows => mret (head rows)
  | None => throw "Cannot read properties of null (reading '0')"
  end.

(** [if (error) throw error;] *)
Definition throw_if {A} (r : Result A) : M unit :=
  match error r with
  | Some e => throw e
  | None => mret tt
  end.

(** app.get('/api/clients') *)
Definition get_clients : M Response :=
  try_catch
    (r ← select_ordered;
     _ ← throw_if r;
     res_json (BData (data r)))
    (fun err =>
       _ ← console_error "❌ Error fetching clients:" err;
       res_status_json 500 (BError "Failed to fetch clients")).

(** app.get('/api/clients/:id') *)
Definition get_client (idp : string) : M Response :=
  try_catch
    (r ← select_single idp;
     _ ← throw_if r;
     res_json (match data r with Some c => BClient c | None => BNull end))
    (fun err =>
       _ ← console_error "❌ Error fetching client:" err;
       res_status_json 500 (BError "Failed to fetch client")).

(** app.post('/api/clients') *)
Definition post_client (req : Request) : M Response :=
  try_catch
    (let clientData := body req in
     r ← insert_rows clientData;
     _ ← throw_if r;
     c ← first_of (data r);
     res_json (BMessage "✅ Client added successfully" c))
    (fun err =>
       _ ← console_error "❌ Error adding client:" err;
       res_status_json 500 (BError "Failed to add client")).

(** app.put('/api/clients/:id') *)
Definition put_client (idp : string) (req : Request) : M Response :=
  try_catch
    (let clientData := body req in
     r ← update_eq clientData idp;
     _ ← throw_if r;
     c ← first_of (data r);
     res_json (BMessage "✅ Client updated successfully" c))
    (fun err =>
       _ ← console_error "❌ Error updating client:" err;
       res_status_json 500 (BError "Failed to update client")).

(** app.delete('/api/clients/:id') *)
Definition delete_client (idp : string) : M Response :=
  try_catch
    (r ← delete_eq idp;
     _ ← throw_if r;
     c ← first_of (data r);
     res_json (BMessage "✅ Client deleted successfully" c))
    (fun err =>
       _ ← console_error "❌ Error deleting client:" err;
       res_status_json 500 (BError "Failed to delete client")).

(** app.get('/api/health') *)
Definition health : M Response :=
  res_json (BHealth "✅ Smart Broadband Server is running!").

Definition handler (req : Request) : M Response :=
  match route req with
  | Health => health
  | ListClients => get_clients
  | GetClient i => get_client i
  | CreateClient => post_client req
  | UpdateClient i => put_client i req
  | DeleteClient i => delete_client i
  end.

Definition app (env : gmap string string) (req : Request) : M Response :=
  _ ← cors_origin (allowedOrigins env) (origin req);
  handler req.

End Handlers.

End Supabase.

(** ** A supabase client over the table

    The queries as PostgREST answers them for supabase-js 1.x, the
    version whose [createClient] takes the options passed in the source:
    written rows are returned, [update] writes only the columns named by
    its payload, [single] is an error unless exactly one row matches. The
    integer and timestamp columns are exchanged as integers. *)

Module Postgrest.
Import Supabase.

Definition ok {A} (a : A) : Result A := mkResult (Some a) None.
Definition failed {A} (e : string) : Result A := mkResult None (Some e).

(** One HTTP round trip: a fault of the environment rejects the promise;
    otherwise the reply carries rows or an error. *)
Definition call {A} (stmt : Db -> Z -> Result A * Db) : M (Result A) := fun w =>
  let ev := oracle w (calls w) in
  match fault ev with
  | Some e => (inl e, record_failure e (tick w))
  | None =>
      let '(r, d) := stmt (db w) (now ev) in
      match error r with
      | Some e => (inr r, record_failure e (set_db d (tick w)))
      | None => (inr r, set_db d (tick w))
      end
  end.

Definition valid_column (k : string) (v : Json) : bool :=
  bool_decide (k ∈ mutable_fields)
  || (bool_decide (k ∈ system_fields)
      && match v with JNum _ => true | _ => false end).

Definition valid_payload (b : gmap string Json) : bool :=
  forallb (fun kv => valid_column kv.1 kv.2) (map_to_list b).

Definition col (v : option Json) (old : Json) : Json := default old v.

Definition sys (v : option Json) (old : Z) : Z :=
  match v with
  | Some (JNum n) => n
  | _ => old
  end.

(** The columns named by the payload replace those of the row; the
    others are kept. *)
Definition patch (b : gmap string Json) (c : Client) : Client :=
  {| id := sys (b !! "id") (id c);
     full_name := col (b !! "full_name") (full_name c);
     email := col (b !! "email") (email c);
     phone := col (b !! "phone") (phone c);
     location := col (b !! "location") (location c);
     service_type := col (b !! "service_type") (service_type c);
     serial_number := col (b !! "serial_number") (serial_number c);
     price := col (b !! "price") (price c);
     supporter := col (b !! "supporter") (supporter c);
     has_bonus := col (b !! "has_bonus") (has_bonus c);
     created_at := sys (b !! "created_at") (created_at c);
     updated_at := sys (b !! "updated_at") (updated_at c) |}.

(** The row of column defaults. *)
Definition default_row (n t : Z) : Client :=
  {| id := n;
     full_name := JNull; email := JNull; phone := JNull; location := JNull;
     service_type := JNull; serial_number := JNull; price := JNull;
     supporter := JNull; has_bonus := JBool false;
     created_at := t; updated_at := t |}.

Definition null_name (c : Client) : bool := bool_decide (full_name c = JNull).

Definition unique_ids (rows : list Client) : bool := bool_decide (NoDup (id <$> rows)).

Definition rest_select_ordered (d : Db) (_ : Z) : Result (list Client) * Db :=
  (ok (order_by_created_at_desc (table d)), d).

Definition rest_select_single (idp : string) (d : Db) (_ : Z) : Result Client * Db :=
  match pg_int4_in idp with
  | None => (failed "invalid input syntax for type integer", d)
  | Some n =>
      match filter (fun c => has_id n c = true) (table d) with
      | [c] => (ok c, d)
      | _ => (failed "JSON object requested, multiple (or no) rows returned", d)
      end
  end.

Definition rest_insert (b : gmap string Json) (d : Db) (t : Z)
  : Result (list Client) * Db :=
  if negb (valid_payload b) then (failed "invalid column or value", d)
  else
    let row := patch b (default_row (next_id d) t) in
    let next := match b !! "id" with Some _ => next_id d | None => next_id d + 1 end in
    if null_name row then
      (failed "null value in column full_name violates not-null constraint",
       {| table := table d; next_id := next |})
    else if negb (unique_ids (table d ++ [row])) then
      (failed "duplicate key value violates unique constraint",
       {| table := table d; next_id := next |})
    else (ok [row], {| table := table d ++ [row]; next_id := next |}).

Definition rest_update (b : gmap string Json) (idp : string) (d : Db) (_ : Z)
  : Result (list Client) * Db :=
  match pg_int4_in idp with
  | None => (failed "invalid input syntax for type integer", d)
  | Some n =>
      if negb (valid_payload b) then (failed "invalid column or value", d)
      else
        let hit := patch b <$> filter (fun c => has_id n c = true) (table d) in
        let rows := (fun c => if has_id n c then patch b c else c) <$> table d in
        if existsb null_name hit then
          (failed "null value in column full_name violates not-null constraint", d)
        else if negb (unique_ids rows) then
          (failed "duplicate key value violates unique constraint", d)
        else (ok hit, {| table := rows; next_id := next_id d |})
  end.

Definition rest_delete (idp : string) (d : Db) (_ : Z) : Result (list Client) * Db :=
  match pg_int4_in idp with
  | None => (failed "invalid input syntax for type integer", d)
  | Some n =>
      (ok (filter (fun c => has_id n c = true) (table d)),
       {| table := filter (fun c => has_id n c = false) (table d);
          next_id := next_id d |})
  end.

#[global] Instance client : Client_API := {|
  select_ordered := call rest_select_ordered;
  select_single idp := call (rest_select_single idp);
  insert_rows b := call (rest_insert b);
  update_eq b idp := call (rest_update b idp);
  delete_eq idp := call (rest_delete idp)
|}.

End Postgrest.

(** ** Process start *)

Module Startup.

(** What the process does while it starts, in order. Nothing follows
    [Exit]. *)
Inductive Event :=
| NewPool (connectionString : option string)
| PoolConnect
| CreateTable
| NewSupabaseClient (url key : string)
| ProbeTable
| ConsoleError (line : string)
| ConsoleLog (line : string)
| Exit (code : Z)
| Listen (port : string).

#[global] Instance Event_eq_dec : EqDecision Event.
Proof. solve_decision. Defined.

Definition PORT (env : gmap string string) : string :=
  Supabase.env_or (env !! "PORT") "4000".

(** The module body of [src/server.js], then the callback of [listen]. *)
Definition pg (env : gmap string string) : list Event :=
  [ NewPool (env !! "DATABASE_URL");
    PoolConnect;
    CreateTable;
    Listen (PORT env);
    ConsoleLog ("🚀 Server running on port " ++ PORT env)%string;
    ConsoleLog ("🗄️  Database: " ++
                (if JS.falsy (env !! "DATABASE_URL") then "Not configured"
                 else "Supabase Connected"))%string ].

Definition SUPABASE_URL (env : gmap string string) : string :=
  Supabase.env_or (env !! "SUPABASE_URL") "https://pvbowddtvansmqvmivke.supabase.co".

(** The module body of [src/unnamed/part_000], then the callback of
    [listen]. *)
Definition supabase (env : gmap string string) : list Event :=
  if JS.falsy (env !! "SUPABASE_KEY") then
    [ ConsoleError "❌ SUPABASE_KEY is not set. Add it to your .env file.";
      Exit 1 ]
  else
    [ NewSupabaseClient (SUPABASE_URL env) (default EmptyString (env !! "SUPABASE_KEY"));
      ConsoleLog "🗄️ Database: Supabase Connected";
      Listen (PORT env);
      ConsoleLog ("🚀 Server running on port " ++ PORT env)%string;
      ProbeTable ].

Definition exits (tr : list Event) : Prop := ∃ c, Exit c ∈ tr.
Definition listens (tr : list Event) : Prop := ∃ p, Listen p ∈ tr.

End Startup.

(** ** Worlds and requests used to run the handlers *)

Module Sample.

(** No fault; the clock advances by one at each storage call. *)
Definition quiet (t0 : Z) : nat -> Env := fun i => mkEnv None (t0 + Z.of_nat i).

(** The first storage call fails with the given detail. *)
Definition failing (detail : string) : nat -> Env :=
  fun i => match i with O => mkEnv (Some detail) 100 | _ => mkEnv None 100 end.

Definition world_of (rows : list Client) : World :=
  {| db := {| table := rows; next_id := 1 + Z.of_nat (length rows) |};
     oracle := quiet 100; calls := 0; console := []; failed_calls := [] |}.

Definition row (n : Z) : Client :=
  {| id := n;
     full_name := JStr "Alice"; email := JStr "a@x.com"; phone := JNull;
     location := JNull; service_type := JNull; serial_number := JNull;
     price := JNull; supporter := JNull; has_bonus := JBool false;
     created_at := n; updated_at := n |}.

Definition eleven_rows : list Client := row <$> seqZ 1 11.

Definition request (r : Route) (page : option string) (b : gmap string Json) : Request :=
  {| origin := None; route := r; query_page := page; body := b |}.

Definition w11 : World := world_of eleven_rows.

Definition empty : World := world_of [].

(** Two worlds whose first storage call fails, with different details. *)
Definition refused : World :=
  {| db := db w11; oracle := failing "connection refused"; calls := 0;
     console := []; failed_calls := [] |}.

Definition timed_out : World :=
  {| db := db w11; oracle := failing "timeout"; calls := 0;
     console := []; failed_calls := [] |}.

Definition list_page (p : string) : Request := request ListClients (Some p) ∅.

Definition rename_3 : Request :=
  request (UpdateClient "3") None {[ "full_name" := JStr "Alice B." ]}.

(** An update which also names created_at. *)
Definition backdate_3 : Request :=
  request (UpdateClient "3") None
    {[ "full_name" := JStr "Alice B."; "created_at" := JNum 1000 ]}.

Definition delete_12 : Request := request (DeleteClient "12") None ∅.

Definition get_12 : Request := request (GetClient "12") None ∅.

Definition create_alice : Request :=
  request CreateClient None {[ "full_name" := JStr "Alice" ]}.



Definition with_key : gmap string string := {[ "SUPABASE_KEY" := "secret" ]}.

End Sample.

(** The value of a decimal numeral read from its first digit on, after
    the digits accumulated in [acc]. *)
Fixpoint uint_value (d : Decimal.uint) (acc : Z) : Z :=
  match d with
  | Nil => acc
  | D0 l => uint_value l (acc * 10 + 0)
  | D1 l => uint_value l (acc * 10 + 1)
  | D2 l => uint_value l (acc * 10 + 2)
  | D3 l => uint_value l (acc * 10 + 3)
  | D4 l => uint_value l (acc * 10 + 4)
  | D5 l => uint_value l (acc * 10 + 5)
  | D6 l => uint_value l (acc * 10 + 6)
  | D7 l => uint_value l (acc * 10 + 7)
  | D8 l => uint_value l (acc * 10 + 8)
  | D9 l => uint_value l (acc * 10 + 9)
  end.

(** The page number a list request is served with. *)
Definition page_of (req : Request) : Z :=
  JS.or_default (JS.parseInt (query_page req)) 1.

(** The id a route addresses, for the three routes under /api/clients/:id. *)
Definition by_id (r : Route) : option string :=
  match r with
  | GetClient i | UpdateClient i | DeleteClient i => Some i
  | _ => None
  end.

(** No row of the table has the id written in the path. *)
Definition no_match (i : string) (d : Db) : Prop :=
  forall c, c ∈ table d -> pg_int4_in i ≠ Some (id c).

(** The content of a mutable column, by the name of the column. *)
Definition column (k : string) (c : Client) : Json :=
  if decide (k = "full_name") then full_name c
  else if decide (k = "email") then email c
  else if decide (k = "phone") then phone c
  else if decide (k = "location") then location c
  else if decide (k = "service_type") then service_type c
  else if decide (k = "serial_number") then serial_number c
  else if decide (k = "price") then price c
  else if decide (k = "supporter") then supporter c
  else if decide (k = "has_bonus") then has_bonus c
  else JNull.





(** The database clock never stands still between two storage calls. *)
Definition increasing (o : nat -> Env) : Prop :=
  forall i, now (o i) < now (o (S i)).

(** Every record was created no later than it was last written, and was
    last written before the next reading of the clock. *)
Definition timely (w : World) : Prop :=
  forall c, c ∈ table (db w) ->
    created_at c <= updated_at c /\ updated_at c < now (oracle w (calls w)).

(** The same, with respect to a clock reading already taken. *)
Definition stamped (t : Z) (d : Db) : Prop :=
  forall c, c ∈ table d -> created_at c <= updated_at c /\ updated_at c <= t.

(** The world after the pg variant has served the requests in turn. *)
Fixpoint serve_all (reqs : list Request) (w : World) : World :=
  match reqs with
  | [] => w
  | req :: rest => serve_all rest (Pg.handler req w).2
  end.

(** A statement keeps the timestamps in order when every record it
    leaves was written no later than the reading it ran at. *)
Definition keeps_order {A} (stmt : Pg.Stmt A) : Prop :=
  forall d t r d',
    (forall c, c ∈ table d -> created_at c <= updated_at c /\ updated_at c < t) ->
    stmt d t = (r, d') -> stamped t d'.


(** The message of the 500 answer of each route which calls the
    storage; the health route has none. *)
Definition failure_message (r : Route) : string :=
  match r with
  | Health => EmptyString
  | ListClients => "Failed to fetch clients"
  | GetClient _ => "Failed to fetch client"
  | CreateClient => "Failed to add client"
  | UpdateClient _ => "Failed to update client"
  | DeleteClient _ => "Failed to delete client"
  end.

(** The two servers, the supabase one over the client of [Postgrest]. *)
Inductive Variant := PgServer | SupabaseServer.

Definition serve (v : Variant) (req : Request) : M Response :=
  match v with
  | PgServer => Pg.handler req
  | SupabaseServer => Supabase.handler (supabase := Postgrest.client) req
  end.

(** Two worlds which differ at most in the details of the faults of the
    environment, and in what was printed and recorded so far. *)
Definition same_but_details (w1 w2 : World) : Prop :=
  db w1 = db w2 /\ calls w1 = calls w2 /\
  forall i, now (oracle w1 i) = now (oracle w2 i) /\
            (fault (oracle w1 i) = None <-> fault (oracle w2 i) = None).

(** ** Startup helpers of the two variants *)

Module Boot.

Definition console_log (line : string) : M unit := fun w =>
  (inr tt, print line w).

(** [createTable] of [src/server.js]; [ddl] is the statement
    [CREATE TABLE IF NOT EXISTS clients (...)]. A [Db] always has the
    table, so what the statement does where the table is missing cannot
    be written over [Db]: the statement is left open, it may change the
    database in any way and it may fail. The function does not look at
    its result. *)
Definition createTable (ddl : Pg.Stmt unit) : M unit :=
  try_catch
    (_ ← Pg.pool_query ddl;
     console_log "✅ Clients table ready")
    (fun err => console_error "❌ Error creating table:" err).

(** [createClientsTable] of [src/unnamed/part_000]; [probe] is the query
    [supabase.from('clients').select('*').limit(1)], whose result the
    function does not look at. *)
Definition createClientsTable (probe : M (Supabase.Result (list Client))) : M unit :=
  try_catch
    (_ ← probe;
     console_log "✅ Clients table ready")
    (fun err => console_error "❌ Error accessing Clients table:" err).

End Boot.

(** ** The middleware in front of the handlers *)

Module Pipeline.





End Pipeline.

(** ** Notions used to state the further properties *)

(** Strictly descending order of created_at: the order of a list in
    which no two records have the same created_at and which ORDER BY
    created_at DESC admits; there is one such list. *)
Definition newer_first (a b : Client) : Prop := created_at b < created_at a.

(** An id which no syntax of integers fits: after blanks and a sign, the
    text does not start with a decimal digit (every integer literal of
    PostgreSQL, those with a prefix 0x, 0o or 0b included, starts with
    one), nor with an underscore. *)
Definition surely_malformed (i : string) : bool :=
  match (JS.strip_sign (JS.trim_start i)).2 with
  | EmptyString => true
  | String c _ =>
      negb ((48 <=? JS.code c) && (JS.code c <=? 57)) && negb (Ascii.eqb c "_")
  end.

(** Ids are unique, and all below the next value of the sequence. *)
Definition ids_fresh (d : Db) : Prop :=
  NoDup (id <$> table d) /\ forall c, c ∈ table d -> id c < next_id d.

(** A statement keeps the ids fresh and never takes the sequence back. *)
Definition keeps_fresh {A} (stmt : Pg.Stmt A) : Prop :=
  forall d t r d',
    ids_fresh d -> stmt d t = (r, d') ->
    ids_fresh d' /\ next_id d <= next_id d'.

(** What the catch block of each route prints before the detail. *)
Definition log_prefix (r : Route) : string :=
  match r with
  | Health => EmptyString
  | ListClients => "❌ Error fetching clients:"
  | GetClient _ => "❌ Error fetching client:"
  | CreateClient => "❌ Error adding client:"
  | UpdateClient _ => "❌ Error updating client:"
  | DeleteClient _ => "❌ Error deleting client:"
  end.

(** The records of the data field of an answer, none when the answer has
    no such field. *)
Definition data_of (r : string + Response) : list Client :=
  match r with
  | inr {| payload := BPage data _ _ _ |} => data
  | _ => []
  end.

(** The list request for page [p], written in decimal. *)
Definition page_request (p : Z) : Request :=
  {| origin := None; route := ListClients; query_page := Some (int8_out p);
     body := ∅ |}.

(** What may follow the digits of a page number without changing what
    [parseInt] reads: nothing, or a character which is neither a decimal
    digit nor the x of a hexadecimal prefix. *)
Definition ends_number (s : string) : bool :=
  match s with
  | EmptyString => true
  | String c _ =>
      negb (Ascii.eqb c "x") && negb (Ascii.eqb c "X")
      && match JS.digit_value c with
         | Some v => 10 <=? v
         | None => true
         end
  end.

(** The list request whose page is the decimal text of [p] followed by
    [suffix]. *)
Definition page_request_with (p : Z) (suffix : string) : Request :=
  {| origin := None; route := ListClients;
     query_page := Some (int8_out p ++ suffix)%string; body := ∅ |}.

(** The routes which only read. *)
Definition reads_only (r : Route) : bool :=
  match r with
  | Health | ListClients | GetClient _ => true
  | _ => false
  end.

Module More.

Definition two_rows_same_id : list Client := [Sample.row 3; Sample.row 3].

(** The record a creation from [Sample.create_alice] inserts first. *)
Definition alice_1 : Client :=
  {| id := 1;
     full_name := JStr "Alice"; email := JNull; phone := JNull;
     location := JNull; service_type := JNull; serial_number := JNull;
     price := JNull; supporter := JNull; has_bonus := JNull;
     created_at := 100; updated_at := 100 |}.

Definition get_3 : Request := Sample.request (GetClient "3") None ∅.

Definition delete_3 : Request := Sample.request (DeleteClient "3") None ∅.

Definition get_abc : Request := Sample.request (GetClient "abc") None ∅.

Definition create_nameless : Request :=
  Sample.request CreateClient None {[ "email" := JStr "a@x.com" ]}.

Definition clear_name_3 : Request :=
  Sample.request (UpdateClient "3") None {[ "email" := JStr "b@x.com" ]}.


(** A probe whose reply carries an error. *)
Definition probe_error : M (Supabase.Result (list Client)) :=
  Postgrest.call (fun d _ => (Postgrest.failed "relation does not exist", d)).

(** A probe whose promise is rejected. *)
Definition probe_rejected : M (Supabase.Result (list Client)) :=
  throw "fetch failed".

(** A CREATE TABLE which the database refuses. *)
Definition ddl_denied : Pg.Stmt unit :=
  fun d _ => (inl "permission denied for schema public", d).


End More.

(** * Properties *)

(** ** parseInt on sample inputs *)

Example parseInt_3 : JS.parseInt (Some "3") = JS.Int 3.
Proof. reflexivity. Qed.

Example parseInt_suffix : JS.parseInt (Some " -12px") = JS.Int (-12).
Proof. reflexivity. Qed.

Example parseInt_hex : JS.parseInt (Some "0x1f") = JS.Int 31.
Proof. reflexivity. Qed.

Example parseInt_abc : JS.parseInt (Some "abc") = JS.NaN.
Proof. reflexivity. Qed.

Example parseInt_undefined : JS.parseInt None = JS.NaN.
Proof. reflexivity. Qed.

Example pg_int4_in_12 : pg_int4_in " 12 " = Some 12.
Proof. reflexivity. Qed.

Example pg_int4_in_12abc : pg_int4_in "12abc" = None.
Proof. reflexivity. Qed.

(** ** Reading back the text of a count *)

Lemma scan_uint (d : Decimal.uint) (acc : Z) :
  JS.scan_digits 10 (NilEmpty.string_of_uint d) acc true
  = (Some (uint_value d acc), EmptyString).
Proof.
  revert acc. induction d; intros acc; [reflexivity|..]; simpl; apply IHd.
Qed.

Lemma uint_value_acc (d : Decimal.uint) (p : positive) :
  uint_value d (Z.pos p) = Z.pos (Pos.of_uint_acc d p).
Proof.
  revert p. induction d; intros p; [reflexivity|..]; simpl;
    rewrite <- IHd; f_equal; lia.
Qed.

Lemma uint_value_0 (d : Decimal.uint) : uint_value d 0 = Z.of_N (Pos.of_uint d).
Proof.
  induction d; [reflexivity|..]; simpl; [exact IHd|..]; apply uint_value_acc.
Qed.

(** A numeral which is not empty reads back as its value. *)
Lemma parseInt_uint (d : Decimal.uint) :
  d <> Nil ->
  JS.parseInt_string (NilEmpty.string_of_uint d) = JS.Int (Z.of_N (Pos.of_uint d)) /\
  JS.parseInt_string (String "-" (NilEmpty.string_of_uint d))
    = JS.Int (- Z.of_N (Pos.of_uint d)).
Proof.
  intros Hd. rewrite <- uint_value_0.
  assert (Hscan : JS.scan_digits 10 (NilEmpty.string_of_uint d) 0 false
                  = (Some (uint_value d 0), EmptyString)).
  { destruct d; [done|..]; simpl; apply scan_uint. }
  assert (Hhex : JS.strip_hex_prefix (NilEmpty.string_of_uint d)
                 = (10, NilEmpty.string_of_uint d)).
  { destruct d as [|l|l|l|l|l|l|l|l|l|l]; try reflexivity. by destruct l. }
  split.
  - unfold JS.parseInt_string.
    assert (JS.strip_sign (JS.trim_start (NilEmpty.string_of_uint d))
            = (1, NilEmpty.string_of_uint d)) as -> by (by destruct d).
    rewrite Hhex, Hscan. cbn [fst]. f_equal; lia.
  - unfold JS.parseInt_string.
    change (JS.strip_sign (JS.trim_start (String "-" (NilEmpty.string_of_uint d))))
      with (-1, NilEmpty.string_of_uint d).
    cbv beta iota. rewrite Hhex, Hscan. cbn [fst]. f_equal; lia.
Qed.

Lemma to_uint_not_nil (p : positive) : Pos.to_uint p <> Nil.
Proof.
  intros H. pose proof (DecimalPos.Unsigned.of_to p) as E. rewrite H in E. discriminate.
Qed.

(** The text of an integer reads back as the integer. *)
Lemma parseInt_int8_out (n : Z) : JS.parseInt_string (int8_out n) = JS.Int n.
Proof.
  unfold int8_out. destruct n as [|p|p]; [reflexivity|..]; simpl.
  - rewrite (proj1 (parseInt_uint _ (to_uint_not_nil p))).
    by rewrite DecimalPos.Unsigned.of_to.
  - rewrite (proj2 (parseInt_uint _ (to_uint_not_nil p))).
    by rewrite DecimalPos.Unsigned.of_to.
Qed.

Example parseInt_count_11 : JS.parseInt (Some (int8_out 11)) = JS.Int 11.
Proof. reflexivity. Qed.

(** ** Arithmetic and ordering *)

Lemma ceil_div_bounds (a b : Z) :
  0 < b -> b * (JS.ceil_div a b - 1) < a <= b * JS.ceil_div a b.
Proof.
  intros Hb. unfold JS.ceil_div.
  pose proof (Z.div_mod (- a) b) as Hdm.
  pose proof (Z.mod_pos_bound (- a) b Hb) as Hm.
  nia.
Qed.

Lemma ceil_div_0 (b : Z) : JS.ceil_div 0 b = 0.
Proof. unfold JS.ceil_div. simpl. by rewrite Zdiv_0_l. Qed.

#[global] Instance created_desc_trans : Transitive created_desc.
Proof. intros a b c. unfold created_desc. lia. Qed.

#[global] Instance created_desc_total : Total created_desc.
Proof. intros a b. unfold created_desc. lia. Qed.

Lemma ordered_sorted (rows : list Client) :
  StronglySorted created_desc (order_by_created_at_desc rows).
Proof. apply StronglySorted_merge_sort; apply _. Qed.

Lemma ordered_nil : order_by_created_at_desc [] = [].
Proof. reflexivity. Qed.

Lemma ordered_perm (rows : list Client) : order_by_created_at_desc rows ≡ₚ rows.
Proof. apply merge_sort_Permutation. Qed.

Lemma ordered_length (rows : list Client) :
  length (order_by_created_at_desc rows) = length rows.
Proof. apply Permutation_length, ordered_perm. Qed.

Lemma sorted_take_drop (n k : nat) (l : list Client) :
  StronglySorted created_desc l -> StronglySorted created_desc (take n (drop k l)).
Proof.
  intros Hs.
  rewrite <- (take_drop k l) in Hs. apply StronglySorted_app_1_r in Hs.
  rewrite <- (take_drop n (drop k l)) in Hs. by apply StronglySorted_app_1_l in Hs.
Qed.

Lemma take_drop_subseteq (n k : nat) (l : list Client) : take n (drop k l) ⊆ l.
Proof.
  intros x Hx. apply (subseteq_drop k l). by apply (subseteq_take n (drop k l)).
Qed.

(** ** One storage call *)

Ltac run :=
  repeat (progress unfold try_catch, mbind, M_bind, mret, M_ret, res_json,
            res_status_json, console_error, console_warn, throw in * ).

Lemma pool_query_fault {A} (stmt : Pg.Stmt A) (w : World) (e : string) :
  fault (oracle w (calls w)) = Some e ->
  Pg.pool_query stmt w = (inl e, record_failure e (tick w)).
Proof. intros H. unfold Pg.pool_query. by rewrite H. Qed.

Lemma pool_query_run {A} (stmt : Pg.Stmt A) (w : World) :
  fault (oracle w (calls w)) = None ->
  Pg.pool_query stmt w =
    match stmt (db w) (now (oracle w (calls w))) with
    | (inl e, d) => (inl e, record_failure e (set_db d (tick w)))
    | (inr a, d) => (inr a, set_db d (tick w))
    end.
Proof. intros H. unfold Pg.pool_query. by rewrite H. Qed.

(** A call which returns rows met no fault and left no trace in the
    history of failures. *)
Lemma pool_query_inr {A} (stmt : Pg.Stmt A) (w w' : World) (a : A) :
  Pg.pool_query stmt w = (inr a, w') ->
  fault (oracle w (calls w)) = None /\
  exists d, stmt (db w) (now (oracle w (calls w))) = (inr a, d) /\
            w' = set_db d (tick w).
Proof.
  unfold Pg.pool_query. destruct (fault _) as [e|]; [discriminate|].
  destruct (stmt _ _) as [[e|a'] d]; [discriminate|].
  intros [= -> <-]. eauto.
Qed.

(** A call which throws has recorded its detail. *)
Lemma pool_query_inl {A} (stmt : Pg.Stmt A) (w w' : World) (e : string) :
  Pg.pool_query stmt w = (inl e, w') ->
  failed_calls w' = (failed_calls w ++ [e])%list /\ console w' = console w /\
  calls w' = S (calls w).
Proof.
  unfold Pg.pool_query. destruct (fault _) as [e'|].
  - intros [= -> <-]. done.
  - destruct (stmt _ _) as [[e'|a'] d]; [|discriminate].
    intros [= -> <-]. done.
Qed.

(** ** Listing, pg variant *)

Lemma select_page_rows (limit offset : Z) (d d' : Db) (t : Z) (rows : list Client) :
  Pg.sql_select_page limit offset d t = (inr rows, d') ->
  d' = d /\ 0 <= limit /\ 0 <= offset <= 9223372036854775807 /\
  rows = take (Z.to_nat limit)
           (drop (Z.to_nat offset) (order_by_created_at_desc (table d))).
Proof.
  unfold Pg.sql_select_page.
  destruct (limit <? 0) eqn:Hl; [discriminate|].
  destruct (offset <? 0) eqn:Ho; [discriminate|].
  destruct (9223372036854775807 <? offset) eqn:Hm; [discriminate|].
  intros [= <- <-]. repeat split; lia.
Qed.

(** What a list request answers with status 200. *)
Lemma get_clients_200 (req : Request) (w w' : World) (b : Body) :
  Pg.get_clients req w = (inr (mkResponse 200 b), w') ->
  0 <= (page_of req - 1) * 10 /\
  b = BPage
        (take 10 (drop (Z.to_nat ((page_of req - 1) * 10))
                       (order_by_created_at_desc (table (db w)))))
        (page_of req)
        (JS.Int (JS.ceil_div (Z.of_nat (length (table (db w)))) 10))
        (JS.Int (Z.of_nat (length (table (db w))))) /\
  db w' = db w /\ failed_calls w' = failed_calls w.
Proof.
  unfold Pg.get_clients. fold (page_of req). run.
  destruct (Pg.pool_query (Pg.sql_select_page _ _) w) as [[e|rows] w1] eqn:H1;
    [discriminate|].
  apply pool_query_inr in H1 as (_ & d1 & Hs & ->).
  apply select_page_rows in Hs as (-> & _ & Hoff & ->).
  destruct (Pg.pool_query Pg.sql_count _) as [[e|n] w2] eqn:H2; [discriminate|].
  apply pool_query_inr in H2 as (_ & d2 & Hc & ->).
  unfold Pg.sql_count in Hc. injection Hc as <- <-.
  unfold JS.parseInt. rewrite parseInt_int8_out.
  intros [= <- <-]. simpl. repeat split; try done. lia.
Qed.

(** C2, pg variant. A list request answered with status 200 carries
    the four fields data, currentPage, totalPages and totalClients:
    totalClients counts the table, totalPages is the least number of
    pages of ten which hold that many records, data is the slice of ten
    at the page's offset of the table ordered by created_at descending,
    so it has at most ten records of the table in descending order of
    created_at, and an empty table gives no data and no page. *)
Theorem pg_list_clients_page (req : Request) (w : World) (b : Body) :
  (Pg.get_clients req w).1 = inr (mkResponse 200 b) ->
  exists data totalPages,
    b = BPage data (page_of req) (JS.Int totalPages)
          (JS.Int (Z.of_nat (length (table (db w))))) /\
    10 * (totalPages - 1) < Z.of_nat (length (table (db w))) <= 10 * totalPages /\
    data = take 10 (drop (Z.to_nat ((page_of req - 1) * 10))
                      (order_by_created_at_desc (table (db w)))) /\
    (length data <= 10)%nat /\
    StronglySorted created_desc data /\
    data ⊆ table (db w) /\
    (table (db w) = [] -> data = [] /\ totalPages = 0).
Proof.
  destruct (Pg.get_clients req w) as [r w'] eqn:Hrun. simpl. intros ->.
  apply get_clients_200 in Hrun as (Hoff & -> & _ & _).
  eexists _, _. split; [reflexivity|].
  split; [apply ceil_div_bounds; lia|].
  split; [reflexivity|].
  split; [rewrite length_take; lia|].
  split; [apply sorted_take_drop, ordered_sorted|].
  split.
  - intros x Hx. apply take_drop_subseteq in Hx.
    by rewrite ordered_perm in Hx.
  - intros Hnil. rewrite Hnil. split; [|apply ceil_div_0].
    by rewrite ordered_nil, drop_nil.
Qed.

Lemma pg_list_clients_page_witness :
  (Pg.get_clients (Sample.list_page "2") Sample.w11).1 =
    inr (mkResponse 200 (BPage [Sample.row 1] 2 (JS.Int 2) (JS.Int 11))) /\
  exists data totalPages,
    BPage [Sample.row 1] 2 (JS.Int 2) (JS.Int 11) =
      BPage data (page_of (Sample.list_page "2")) (JS.Int totalPages)
        (JS.Int (Z.of_nat (length (table (db Sample.w11))))) /\
    10 * (totalPages - 1) < Z.of_nat (length (table (db Sample.w11))) <= 10 * totalPages /\
    data = take 10 (drop (Z.to_nat ((page_of (Sample.list_page "2") - 1) * 10))
                      (order_by_created_at_desc (table (db Sample.w11)))) /\
    (length data <= 10)%nat /\
    StronglySorted created_desc data /\
    data ⊆ table (db Sample.w11) /\
    (table (db Sample.w11) = [] -> data = [] /\ totalPages = 0).
Proof.
  assert (H : (Pg.get_clients (Sample.list_page "2") Sample.w11).1 =
              inr (mkResponse 200 (BPage [Sample.row 1] 2 (JS.Int 2) (JS.Int 11))))
    by (vm_compute; reflexivity).
  split; [exact H | exact (pg_list_clients_page _ _ _ H)].
Defined.

Lemma select_page_ok (offset : Z) (d : Db) (t : Z) :
  0 <= offset <= 9223372036854775807 ->
  Pg.sql_select_page 10 offset d t =
    (inr (take 10 (drop (Z.to_nat offset) (order_by_created_at_desc (table d)))), d).
Proof.
  intros H. unfold Pg.sql_select_page.
  assert ((offset <? 0) = false) as -> by (apply Z.ltb_ge; lia).
  assert ((9223372036854775807 <? offset) = false) as -> by (apply Z.ltb_ge; lia).
  reflexivity.
Qed.

Lemma select_page_negative (offset : Z) (d : Db) (t : Z) :
  offset < 0 ->
  Pg.sql_select_page 10 offset d t = (inl "OFFSET must not be negative", d).
Proof.
  intros H. unfold Pg.sql_select_page.
  assert ((offset <? 0) = true) as -> by (apply Z.ltb_lt; lia).
  reflexivity.
Qed.

(** The two storage calls of a list request when nothing fails. *)
Lemma get_clients_ok (req : Request) (w : World) :
  0 <= (page_of req - 1) * 10 <= 9223372036854775807 ->
  fault (oracle w (calls w)) = None ->
  fault (oracle w (S (calls w))) = None ->
  Pg.get_clients req w =
    (inr (mkResponse 200
            (BPage
               (take 10 (drop (Z.to_nat ((page_of req - 1) * 10))
                              (order_by_created_at_desc (table (db w)))))
               (page_of req)
               (JS.Int (JS.ceil_div (Z.of_nat (length (table (db w)))) 10))
               (JS.Int (Z.of_nat (length (table (db w))))))),
     set_db (db w) (tick (set_db (db w) (tick w)))).
Proof.
  intros Hoff H1 H2. unfold Pg.get_clients. fold (page_of req). run.
  rewrite (pool_query_run _ w H1), select_page_ok by done.
  rewrite pool_query_run by exact H2. unfold Pg.sql_count.
  unfold JS.parseInt. by rewrite parseInt_int8_out.
Qed.

(** C10. In the pg variant, a list request for a page p >= 1 lying
    beyond the last record, whose offset (p - 1) * 10 is at most 2^53 - 1
    (up to there the numbers of JavaScript are the integers, and the
    offset is in the range of the OFFSET parameter) and whose two storage
    calls meet no fault, is answered with status 200, no data, and
    currentPage p as asked, neither 404 nor a clamped page. *)
Theorem pg_page_beyond_end (req : Request) (w : World) (p : Z) :
  JS.parseInt (query_page req) = JS.Int p ->
  1 <= p ->
  Z.of_nat (length (table (db w))) <= (p - 1) * 10 ->
  (p - 1) * 10 <= 9007199254740991 ->
  fault (oracle w (calls w)) = None ->
  fault (oracle w (S (calls w))) = None ->
  (Pg.get_clients req w).1 =
    inr (mkResponse 200
           (BPage [] p
              (JS.Int (JS.ceil_div (Z.of_nat (length (table (db w)))) 10))
              (JS.Int (Z.of_nat (length (table (db w))))))).
Proof.
  intros Hp H1 Hbeyond Hmax Hf1 Hf2.
  assert (Hpage : page_of req = p).
  { unfold page_of. rewrite Hp. simpl. destruct (p =? 0) eqn:E; lia. }
  rewrite get_clients_ok by (rewrite ?Hpage; auto; lia).
  simpl. rewrite Hpage, drop_ge; [done|].
  rewrite ordered_length. lia.
Qed.

Lemma pg_page_beyond_end_witness :
  JS.parseInt (query_page (Sample.list_page "3")) = JS.Int 3 /\
  1 <= 3 /\
  Z.of_nat (length (table (db Sample.w11))) <= (3 - 1) * 10 /\
  (3 - 1) * 10 <= 9007199254740991 /\
  fault (oracle Sample.w11 (calls Sample.w11)) = None /\
  fault (oracle Sample.w11 (S (calls Sample.w11))) = None /\
  (Pg.get_clients (Sample.list_page "3") Sample.w11).1 =
    inr (mkResponse 200
           (BPage [] 3
              (JS.Int (JS.ceil_div (Z.of_nat (length (table (db Sample.w11)))) 10))
              (JS.Int (Z.of_nat (length (table (db Sample.w11))))))).
Proof.
  assert (H1 : JS.parseInt (query_page (Sample.list_page "3")) = JS.Int 3)
    by reflexivity.
  assert (H2 : 1 <= 3) by lia.
  assert (H3 : Z.of_nat (length (table (db Sample.w11))) <= (3 - 1) * 10)
    by (vm_compute; discriminate).
  assert (H4 : (3 - 1) * 10 <= 9007199254740991) by lia.
  assert (H5 : fault (oracle Sample.w11 (calls Sample.w11)) = None) by reflexivity.
  assert (H6 : fault (oracle Sample.w11 (S (calls Sample.w11))) = None) by reflexivity.
  repeat (split; [assumption|]).
  exact (pg_page_beyond_end _ _ 3 H1 H2 H3 H4 H5 H6).
Defined.

(** Not every page beyond the last record is answered 200: the page
    10^18 is a page p >= 1 whose offset is beyond the eleven records of
    the table, no storage call meets a fault of the environment, and the
    answer is status 500, because the offset is beyond the range of the
    OFFSET parameter and the database refuses the query. *)
Lemma pg_huge_page_500 :
  JS.parseInt (query_page (Sample.list_page "1000000000000000000"))
    = JS.Int 1000000000000000000 /\
  1 <= 1000000000000000000 /\
  Z.of_nat (length (table (db Sample.w11))) <= (1000000000000000000 - 1) * 10 /\
  (forall i, fault (oracle Sample.w11 i) = None) /\
  (Pg.get_clients (Sample.list_page "1000000000000000000") Sample.w11).1 =
    inr (mkResponse 500 (BError "Failed to fetch clients")).
Proof.
  split; [vm_compute; reflexivity|].
  split; [lia|].
  split; [vm_compute; discriminate|].
  split; [reflexivity|].
  vm_compute; reflexivity.
Qed.

(** The default of the page number: a page which is not a number, or is
    zero, or is missing, is served as page 1. *)
Lemma page_defaults_to_1 (req : Request) :
  JS.parseInt (query_page req) = JS.NaN \/ JS.parseInt (query_page req) = JS.Int 0 ->
  page_of req = 1.
Proof. unfold page_of. by intros [-> | ->]. Qed.

Lemma get_clients_page_only (r1 r2 : Request) (w : World) :
  page_of r1 = page_of r2 -> Pg.get_clients r1 w = Pg.get_clients r2 w.
Proof. intros H. unfold Pg.get_clients. fold (page_of r1) (page_of r2). by rewrite H. Qed.

(** A list request whose page is not a number, or is zero, is handled as
    the request for page 1. *)
Lemma pg_invalid_page_served_as_1 (req : Request) (w : World) :
  JS.parseInt (query_page req) = JS.NaN \/ JS.parseInt (query_page req) = JS.Int 0 ->
  Pg.get_clients req w = Pg.get_clients (Sample.list_page "1") w.
Proof.
  intros H. apply get_clients_page_only. by rewrite page_defaults_to_1.
Qed.

(** C5. A negative page number is not replaced by 1: the handler asks
    the database for a negative OFFSET, the call fails, and the answer is
    status 500, whatever the table holds. *)
Theorem pg_negative_page_fails (req : Request) (w : World) (p : Z) :
  JS.parseInt (query_page req) = JS.Int p ->
  p < 0 ->
  page_of req = p /\
  (Pg.get_clients req w).1 = inr (mkResponse 500 (BError "Failed to fetch clients")).
Proof.
  intros Hp Hneg.
  assert (Hpage : page_of req = p).
  { unfold page_of. rewrite Hp. simpl. destruct (p =? 0) eqn:E; lia. }
  split; [done|].
  unfold Pg.get_clients. fold (page_of req). rewrite Hpage. run.
  destruct (fault (oracle w (calls w))) as [e|] eqn:Hf.
  - by rewrite (pool_query_fault _ w e Hf).
  - rewrite (pool_query_run _ w Hf), select_page_negative by lia. reflexivity.
Qed.

Lemma pg_negative_page_fails_witness :
  JS.parseInt (query_page (Sample.list_page "-1")) = JS.Int (-1) /\
  -1 < 0 /\
  page_of (Sample.list_page "-1") = -1 /\
  (Pg.get_clients (Sample.list_page "-1") Sample.w11).1 =
    inr (mkResponse 500 (BError "Failed to fetch clients")).
Proof.
  assert (H1 : JS.parseInt (query_page (Sample.list_page "-1")) = JS.Int (-1))
    by reflexivity.
  assert (H2 : -1 < 0) by lia.
  repeat (split; [assumption|]).
  exact (pg_negative_page_fails _ Sample.w11 (-1) H1 H2).
Defined.

(** ** Creating, pg variant *)


Lemma insert_row (f : Pg.Fields) (d d' : Db) (t : Z) (rows : list Client) :
  Pg.sql_insert f d t = (inr rows, d') ->
  let c := {| id := next_id d;
              full_name := Pg.f_full_name f; email := Pg.f_email f;
              phone := Pg.f_phone f; location := Pg.f_location f;
              service_type := Pg.f_service_type f;
              serial_number := Pg.f_serial_number f; price := Pg.f_price f;
              supporter := Pg.f_supporter f; has_bonus := Pg.f_has_bonus f;
              created_at := t; updated_at := t |} in
  rows = [c] /\ table d' = (table d ++ [c])%list /\ next_id d' = next_id d + 1.
Proof.
  unfold Pg.sql_insert. destruct (Pg.f_full_name f) eqn:E;
    [discriminate | | |]; intros [= <- <-]; by rewrite <- ?E.
Qed.



(** ** Addressing a client by id, pg variant *)

Lemma app_one_neq {A} (l : list A) (x : A) : (l ++ [x])%list ≠ l.
Proof.
  intros H. apply (f_equal length) in H. rewrite length_app in H. simpl in H. lia.
Qed.

Lemma no_match_filter (i : string) (n : Z) (d : Db) :
  no_match i d -> pg_int4_in i = Some n ->
  filter (fun c => has_id n c = true) (table d) = [].
Proof.
  intros Hno Hi.
  destruct (filter _ (table d)) as [|c rest] eqn:Hf; [done|].
  assert (Hc : c ∈ filter (fun c => has_id n c = true) (table d))
    by (rewrite Hf; left).
  apply list_elem_of_filter in Hc as (Hid & Hc).
  unfold has_id in Hid. apply bool_decide_eq_true in Hid.
  destruct (Hno c Hc). by rewrite Hi, Hid.
Qed.

(** A handler whose storage call threw has a longer history of failures. *)
Lemma failed_call_recorded {A} (stmt : Pg.Stmt A) (w w1 : World) (e : string) :
  Pg.pool_query stmt w = (inl e, w1) ->
  failed_calls w1 ≠ failed_calls w.
Proof.
  intros H. apply pool_query_inl in H as (H & _). rewrite H.
  apply app_one_neq.
Qed.

Ltac storage_threw H :=
  exfalso; eapply failed_call_recorded; [exact H | eassumption].

(** C1, pg variant. A request to get, update or delete a client whose
    id matches no record, and whose storage call succeeds, is answered
    with status 404 and the body {error: "Client not found"}. *)
Theorem pg_missing_client_404 (req : Request) (w : World) (i : string) :
  by_id (route req) = Some i ->
  no_match i (db w) ->
  failed_calls (Pg.handler req w).2 = failed_calls w ->
  (Pg.handler req w).1 = inr (mkResponse 404 (BError "Client not found")).
Proof.
  intros Hroute Hno. unfold Pg.handler.
  destruct (route req) as [| |j| |j|j]; simplify_eq/=.
  - (* GET *)
    unfold Pg.get_client. run.
    destruct (Pg.pool_query _ w) as [[e|rows] w1] eqn:Hq; simpl; intros Hok.
    { storage_threw Hq. }
    apply pool_query_inr in Hq as (_ & d & Hs & ->).
    unfold Pg.sql_select_by_id in Hs. destruct (pg_int4_in i) as [n|] eqn:Hi; [|done].
    rewrite (no_match_filter i n) in Hs by done. by injection Hs as <- <-.
  - (* PUT *)
    unfold Pg.put_client. run.
    destruct (Pg.pool_query _ w) as [[e|rows] w1] eqn:Hq; simpl; intros Hok.
    { storage_threw Hq. }
    apply pool_query_inr in Hq as (_ & d & Hs & ->).
    unfold Pg.sql_update in Hs. destruct (pg_int4_in i) as [n|] eqn:Hi; [|done].
    rewrite (no_match_filter i n) in Hs by done. by injection Hs as <- <-.
  - (* DELETE *)
    unfold Pg.delete_client. run.
    destruct (Pg.pool_query _ w) as [[e|rows] w1] eqn:Hq; simpl; intros Hok.
    { storage_threw Hq. }
    apply pool_query_inr in Hq as (_ & d & Hs & ->).
    unfold Pg.sql_delete in Hs. destruct (pg_int4_in i) as [n|] eqn:Hi; [|done].
    rewrite (no_match_filter i n) in Hs by done. by injection Hs as <- <-.
Qed.

Lemma no_match_12 : no_match "12" (db Sample.w11).
Proof.
  intros c Hc. simpl in Hc. unfold Sample.eleven_rows in Hc.
  apply list_elem_of_fmap in Hc as (n & -> & Hn).
  apply elem_of_seqZ in Hn. vm_compute pg_int4_in. simpl. intros [= E]. lia.
Defined.

Lemma pg_missing_client_404_witness :
  by_id (route Sample.delete_12) = Some "12" /\
  no_match "12" (db Sample.w11) /\
  failed_calls (Pg.handler Sample.delete_12 Sample.w11).2 = failed_calls Sample.w11 /\
  (Pg.handler Sample.delete_12 Sample.w11).1 =
    inr (mkResponse 404 (BError "Client not found")).
Proof.
  assert (H1 : by_id (route Sample.delete_12) = Some "12") by reflexivity.
  assert (H3 : failed_calls (Pg.handler Sample.delete_12 Sample.w11).2
               = failed_calls Sample.w11) by reflexivity.
  split; [exact H1|]. split; [exact no_match_12|]. split; [exact H3|].
  exact (pg_missing_client_404 _ _ "12" H1 no_match_12 H3).
Defined.

(** ** Updating, pg variant *)

Lemma update_rows (f : Pg.Fields) (i : string) (d d' : Db) (t : Z) (rows : list Client) :
  Pg.sql_update f i d t = (inr rows, d') ->
  exists n,
    pg_int4_in i = Some n /\
    rows = Pg.set_fields f t <$> filter (fun c => has_id n c = true) (table d) /\
    table d' = (fun c => if has_id n c then Pg.set_fields f t c else c) <$> table d /\
    next_id d' = next_id d.
Proof.
  unfold Pg.sql_update. destruct (pg_int4_in i) as [n|]; [|discriminate].
  intros H. exists n. split; [done|].
  destruct (filter _ (table d)) as [|c0 rest]; [by injection H as <- <-|].
  destruct (Pg.f_full_name f); [discriminate| | |]; by injection H as <- <-.
Qed.

Lemma column_set_fields (b : gmap string Json) (t : Z) (c : Client) (k : string) :
  k ∈ mutable_fields ->
  column k (Pg.set_fields (Pg.fields_of_body b) t c) = default JNull (b !! k).
Proof.
  intros Hk. unfold mutable_fields in Hk.
  repeat (apply elem_of_cons in Hk as [-> | Hk]; [reflexivity|]).
  by apply elem_of_nil in Hk.
Qed.

(** C3, pg variant. A successful update of an existing client writes
    all nine mutable columns of the record: each holds the value the body
    gives for it, and NULL when the body omits it; nothing of the former
    content of these columns is kept, and the other records are left as
    they were. *)
Theorem pg_update_replaces_all (i : string) (req : Request) (w w' : World)
    (msg : string) (c : Client) :
  Pg.put_client i req w = (inr (mkResponse 200 (BMessage msg (Some c))), w') ->
  exists n,
    pg_int4_in i = Some n /\
    (exists c0, c0 ∈ table (db w) /\ id c0 = n) /\
    c ∈ table (db w') /\ id c = n /\
    (forall r, r ∈ table (db w') -> id r = n ->
       forall k, k ∈ mutable_fields -> column k r = default JNull (body req !! k)) /\
    (forall r, r ∈ table (db w') -> id r ≠ n -> r ∈ table (db w)).
Proof.
  unfold Pg.put_client. run.
  destruct (Pg.pool_query _ w) as [[e|rows] w1] eqn:Hq; [discriminate|].
  apply pool_query_inr in Hq as (_ & d & Hs & ->).
  apply update_rows in Hs as (n & Hi & -> & Htab & _).
  destruct (filter _ (table (db w))) as [|c0 rest] eqn:Hf; [discriminate|].
  simpl. intros [= <- <- <-]. simpl. rewrite Htab.
  assert (Hc0 : c0 ∈ table (db w) /\ id c0 = n).
  { assert (H : c0 ∈ filter (fun c => has_id n c = true) (table (db w)))
      by (rewrite Hf; left).
    apply list_elem_of_filter in H as (Hid & H). split; [done|].
    by apply bool_decide_eq_true in Hid. }
  destruct Hc0 as (Hc0 & Hid0).
  exists n. split; [done|]. split; [by exists c0|].
  split.
  { apply list_elem_of_fmap. exists c0. split; [|done].
    unfold has_id. by rewrite bool_decide_eq_true_2. }
  split; [done|]. split.
  - intros r Hr Hid k Hk.
    apply list_elem_of_fmap in Hr as (r0 & -> & Hr0).
    destruct (has_id n r0) eqn:Hn.
    + by apply column_set_fields.
    + unfold has_id in Hn. by apply bool_decide_eq_false in Hn.
  - intros r Hr Hid.
    apply list_elem_of_fmap in Hr as (r0 & -> & Hr0).
    destruct (has_id n r0) eqn:Hn; [|done].
    unfold has_id in Hn. by apply bool_decide_eq_true in Hn.
Qed.

Lemma pg_update_replaces_all_witness :
  Pg.put_client "3" Sample.rename_3 Sample.w11 =
    (inr (mkResponse 200
            (BMessage "✅ Client updated successfully"
               (Some (Pg.set_fields (Pg.fields_of_body (body Sample.rename_3)) 100
                        (Sample.row 3))))),
     (Pg.put_client "3" Sample.rename_3 Sample.w11).2) /\
  exists n,
    pg_int4_in "3" = Some n /\
    (exists c0, c0 ∈ table (db Sample.w11) /\ id c0 = n) /\
    Pg.set_fields (Pg.fields_of_body (body Sample.rename_3)) 100 (Sample.row 3)
      ∈ table (db (Pg.put_client "3" Sample.rename_3 Sample.w11).2) /\
    id (Pg.set_fields (Pg.fields_of_body (body Sample.rename_3)) 100 (Sample.row 3)) = n /\
    (forall r, r ∈ table (db (Pg.put_client "3" Sample.rename_3 Sample.w11).2) ->
       id r = n ->
       forall k, k ∈ mutable_fields ->
         column k r = default JNull (body Sample.rename_3 !! k)) /\
    (forall r, r ∈ table (db (Pg.put_client "3" Sample.rename_3 Sample.w11).2) ->
       id r ≠ n -> r ∈ table (db Sample.w11)).
Proof.
  assert (H : Pg.put_client "3" Sample.rename_3 Sample.w11 =
    (inr (mkResponse 200
            (BMessage "✅ Client updated successfully"
               (Some (Pg.set_fields (Pg.fields_of_body (body Sample.rename_3)) 100
                        (Sample.row 3))))),
     (Pg.put_client "3" Sample.rename_3 Sample.w11).2))
    by (vm_compute; reflexivity).
  split; [exact H | exact (pg_update_replaces_all "3" _ _ _ _ _ H)].
Defined.

(** ** Timestamps, pg variant *)

Lemma increasing_mono (o : nat -> Env) (i j : nat) :
  increasing o -> (i <= j)%nat -> now (o i) <= now (o j).
Proof.
  intros Hinc Hij. induction Hij as [|j _ IH]; [lia|].
  specialize (Hinc j). lia.
Qed.

Lemma timely_print (line : string) (w : World) : timely (print line w) <-> timely w.
Proof. reflexivity. Qed.

Lemma stamped_of_timely (d : Db) (t : Z) :
  (forall c, c ∈ table d -> created_at c <= updated_at c /\ updated_at c < t) ->
  stamped t d.
Proof. intros H c Hc. destruct (H c Hc). lia. Qed.

Lemma select_page_keeps_order (limit offset : Z) :
  keeps_order (Pg.sql_select_page limit offset).
Proof.
  intros d t r d' Hd. unfold Pg.sql_select_page.
  repeat case_match; intros [= <- <-]; by apply stamped_of_timely.
Qed.

Lemma count_keeps_order : keeps_order Pg.sql_count.
Proof. intros d t r d' Hd [= <- <-]. by apply stamped_of_timely. Qed.

Lemma select_by_id_keeps_order (i : string) : keeps_order (Pg.sql_select_by_id i).
Proof.
  intros d t r d' Hd. unfold Pg.sql_select_by_id.
  case_match; intros [= <- <-]; by apply stamped_of_timely.
Qed.

Lemma insert_keeps_order (f : Pg.Fields) : keeps_order (Pg.sql_insert f).
Proof.
  intros d t r d' Hd. unfold Pg.sql_insert.
  case_match; intros [= <- <-]; intros x Hx; simpl in Hx;
    try (destruct (Hd x Hx); lia);
    (apply elem_of_app in Hx as [Hx | Hx];
     [destruct (Hd x Hx); lia | apply list_elem_of_singleton in Hx as ->; simpl; lia]).
Qed.

Lemma update_keeps_order (f : Pg.Fields) (i : string) : keeps_order (Pg.sql_update f i).
Proof.
  intros d t r d' Hd. unfold Pg.sql_update.
  repeat case_match; intros [= <- <-]; try by apply stamped_of_timely.
  all: intros x Hx; simpl in Hx;
    apply list_elem_of_fmap in Hx as (x0 & -> & Hx0);
    destruct (Hd x0 Hx0); case_match; simpl; lia.
Qed.

Lemma delete_keeps_order (i : string) : keeps_order (Pg.sql_delete i).
Proof.
  intros d t r d' Hd. unfold Pg.sql_delete.
  case_match; intros [= <- <-]; [|by apply stamped_of_timely].
  intros c Hc. simpl in Hc. apply list_elem_of_filter in Hc as (_ & Hc).
  destruct (Hd c Hc). lia.
Qed.

(** One storage call keeps the world timely and leaves the oracle alone. *)
Lemma pool_query_timely {A} (stmt : Pg.Stmt A) (w w' : World) (r : string + A) :
  keeps_order stmt -> increasing (oracle w) -> timely w ->
  Pg.pool_query stmt w = (r, w') ->
  timely w' /\ oracle w' = oracle w.
Proof.
  intros Hk Hinc Ht. unfold Pg.pool_query.
  pose proof (Hinc (calls w)) as Hnext.
  destruct (fault _) as [e|].
  - intros [= <- <-]. split; [|done]. intros c Hc. simpl in *.
    destruct (Ht c Hc). lia.
  - destruct (stmt _ _) as [[e|a] d] eqn:Hs; intros [= <- <-]; (split; [|done]);
      intros c Hc; simpl in *; destruct (Hk _ _ _ _ Ht Hs c Hc); lia.
Qed.

Create HintDb order.

#[local] Hint Resolve select_page_keeps_order count_keeps_order
  select_by_id_keeps_order insert_keeps_order update_keeps_order
  delete_keeps_order : order.

Ltac one_call H Ht Ho :=
  apply pool_query_timely in H as (Ht & Ho); [|auto with order..].

(** Every handler of the pg variant keeps the world timely, and leaves
    the oracle alone. *)
Lemma handler_timely (req : Request) (w : World) :
  increasing (oracle w) -> timely w ->
  timely (Pg.handler req w).2 /\ oracle (Pg.handler req w).2 = oracle w.
Proof.
  intros Hinc Ht. unfold Pg.handler.
  destruct (route req) as [| |j| |j|j].
  - by split.
  - unfold Pg.get_clients. run.
    destruct (Pg.pool_query _ w) as [[e|rows] w1] eqn:H1; one_call H1 Ht1 Ho1;
      [by split|].
    rewrite <- Ho1 in Hinc.
    destruct (Pg.pool_query _ w1) as [[e|n] w2] eqn:H2; one_call H2 Ht2 Ho2;
      (split; [exact Ht2 | simpl; congruence]).
  - unfold Pg.get_client. run.
    destruct (Pg.pool_query _ w) as [[e|rows] w1] eqn:H1; one_call H1 Ht1 Ho1;
      [by split|].
    by destruct rows.
  - unfold Pg.post_client. run.
    destruct (Pg.pool_query _ w) as [[e|rows] w1] eqn:H1; one_call H1 Ht1 Ho1;
      by split.
  - unfold Pg.put_client. run.
    destruct (Pg.pool_query _ w) as [[e|rows] w1] eqn:H1; one_call H1 Ht1 Ho1;
      [by split|].
    by destruct rows.
  - unfold Pg.delete_client. run.
    destruct (Pg.pool_query _ w) as [[e|rows] w1] eqn:H1; one_call H1 Ht1 Ho1;
      [by split|].
    by destruct rows.
Qed.

(** The order of the timestamps holds after any sequence of requests
    served from a timely world, an empty table for one. *)
Lemma serve_all_timely (reqs : list Request) (w : World) :
  increasing (oracle w) -> timely w ->
  forall c, c ∈ table (db (serve_all reqs w)) -> created_at c <= updated_at c.
Proof.
  revert w. induction reqs as [|req reqs IH]; intros w Hinc Ht c Hc; simpl in Hc.
  - by destruct (Ht c Hc).
  - destruct (handler_timely req w Hinc Ht) as (Ht' & Ho).
    apply (IH (Pg.handler req w).2); [by rewrite Ho | done | done].
Qed.

Lemma empty_timely (o : nat -> Env) (n : Z) (k : nat) (out failures : list string) :
  timely (mkWorld (mkDb [] n) o k out failures).
Proof. intros c Hc. by apply elem_of_nil in Hc. Qed.

(** C4, pg variant. While the database clock advances between storage
    calls, every operation keeps created_at <= updated_at on every
    record; and a successful update leaves id and created_at of every
    record as they were, gives the record it addresses a strictly later
    updated_at, and leaves the other records untouched. *)
Theorem pg_update_refreshes_updated_at (req : Request) (w : World) :
  increasing (oracle w) ->
  timely w ->
  timely (Pg.handler req w).2 /\
  (forall c, c ∈ table (db (Pg.handler req w).2) -> created_at c <= updated_at c) /\
  forall i msg c,
    route req = UpdateClient i ->
    (Pg.handler req w).1 = inr (mkResponse 200 (BMessage msg (Some c))) ->
    exists n,
      pg_int4_in i = Some n /\
      Forall2 (fun c0 c1 =>
                 id c1 = id c0 /\ created_at c1 = created_at c0 /\
                 if has_id n c0 then updated_at c0 < updated_at c1 else c1 = c0)
        (table (db w)) (table (db (Pg.handler req w).2)).
Proof.
  intros Hinc Ht.
  pose proof (proj1 (handler_timely req w Hinc Ht)) as Ht'.
  split; [done|]. split; [intros c Hc; by destruct (Ht' c Hc)|].
  intros i msg c Hroute. unfold Pg.handler. rewrite Hroute.
  unfold Pg.put_client. run.
  destruct (Pg.pool_query _ w) as [[e|rows] w1] eqn:Hq; [discriminate|].
  apply pool_query_inr in Hq as (_ & d & Hs & ->).
  apply update_rows in Hs as (n & Hi & -> & Htab & _).
  destruct (filter _ (table (db w))) as [|c0 rest] eqn:Hf; [discriminate|].
  simpl. intros _. exists n. split; [done|]. rewrite Htab.
  apply Forall2_fmap_r, Forall_Forall2_diag, Forall_forall.
  intros r Hr. simpl. destruct (has_id n r); simpl; [|done].
  repeat split. by destruct (Ht r Hr).
Qed.

Lemma pg_update_refreshes_updated_at_witness :
  increasing (oracle Sample.w11) /\
  timely Sample.w11 /\
  timely (Pg.handler Sample.rename_3 Sample.w11).2 /\
  (forall c, c ∈ table (db (Pg.handler Sample.rename_3 Sample.w11).2) ->
     created_at c <= updated_at c) /\
  forall i msg c,
    route Sample.rename_3 = UpdateClient i ->
    (Pg.handler Sample.rename_3 Sample.w11).1 =
      inr (mkResponse 200 (BMessage msg (Some c))) ->
    exists n,
      pg_int4_in i = Some n /\
      Forall2 (fun c0 c1 =>
                 id c1 = id c0 /\ created_at c1 = created_at c0 /\
                 if has_id n c0 then updated_at c0 < updated_at c1 else c1 = c0)
        (table (db Sample.w11))
        (table (db (Pg.handler Sample.rename_3 Sample.w11).2)).
Proof.
  assert (H1 : increasing (oracle Sample.w11)).
  { intros i. simpl. lia. }
  assert (H2 : timely Sample.w11).
  { intros c Hc. simpl in Hc. unfold Sample.eleven_rows in Hc.
    apply list_elem_of_fmap in Hc as (n & -> & Hn).
    apply elem_of_seqZ in Hn. simpl. lia. }
  split; [exact H1|]. split; [exact H2|].
  exact (pg_update_refreshes_updated_at Sample.rename_3 Sample.w11 H1 H2).
Defined.

(** ** The supabase variant *)


(** C1 as stated fails on the supabase variant: deleting an id which
    matches no record, with a storage call which succeeds, is answered
    with status 200 and a message, not with 404. *)
Lemma supabase_missing_client_not_404 :
  by_id (route Sample.delete_12) = Some "12" /\
  no_match "12" (db Sample.w11) /\
  failed_calls (serve SupabaseServer Sample.delete_12 Sample.w11).2
    = failed_calls Sample.w11 /\
  (serve SupabaseServer Sample.delete_12 Sample.w11).1 =
    inr (mkResponse 200 (BMessage "✅ Client deleted successfully" None)) /\
  (serve SupabaseServer Sample.delete_12 Sample.w11).1 ≠
    inr (mkResponse 404 (BError "Client not found")).
Proof.
  split; [reflexivity|]. split; [exact no_match_12|].
  split; [reflexivity|]. split; [vm_compute; reflexivity|].
  vm_compute. discriminate.
Qed.

(** Getting an id which matches no record is answered with status 500 by
    the supabase variant: [single] reports the missing row as an error. *)
Lemma supabase_missing_client_get_500 :
  (serve SupabaseServer Sample.get_12 Sample.w11).1 =
  inr (mkResponse 500 (BError "Failed to fetch client")).
Proof. vm_compute. reflexivity. Qed.

(** C2 as stated fails on the supabase variant: the answer to a list
    request has the single field data, which holds all eleven records of
    an eleven-record table. *)
Lemma supabase_list_not_paginated :
  (serve SupabaseServer (Sample.list_page "1") Sample.w11).1 =
    inr (mkResponse 200 (BData (Some (reverse Sample.eleven_rows)))) /\
  length (reverse Sample.eleven_rows) = 11%nat.
Proof. split; vm_compute; reflexivity. Qed.

(** C3 as stated fails on the supabase variant: a successful update
    whose body omits email leaves the stored email as it was. *)
Lemma supabase_update_keeps_omitted :
  (serve SupabaseServer Sample.rename_3 Sample.w11).1 =
    inr (mkResponse 200
           (BMessage "✅ Client updated successfully"
              (Some (Postgrest.patch (body Sample.rename_3) (Sample.row 3))))) /\
  Postgrest.patch (body Sample.rename_3) (Sample.row 3)
    ∈ table (db (serve SupabaseServer Sample.rename_3 Sample.w11).2) /\
  body Sample.rename_3 !! "email" = None /\
  column "email" (Postgrest.patch (body Sample.rename_3) (Sample.row 3))
    = JStr "a@x.com" /\
  column "email" (Postgrest.patch (body Sample.rename_3) (Sample.row 3)) ≠ JNull.
Proof.
  split; [vm_compute; reflexivity|].
  split; [|by vm_compute].
  apply list_elem_of_lookup. exists 2%nat. vm_compute. reflexivity.
Qed.

(** C4 as stated fails on the supabase variant: a successful update
    writes the columns of the body and no other. With a body which names
    full_name and created_at, updated_at keeps its value, created_at is
    changed, and the record ends with updated_at before created_at. *)
Lemma supabase_update_breaks_timestamps :
  (serve SupabaseServer Sample.backdate_3 Sample.w11).1 =
    inr (mkResponse 200
           (BMessage "✅ Client updated successfully"
              (Some (Postgrest.patch (body Sample.backdate_3) (Sample.row 3))))) /\
  updated_at (Postgrest.patch (body Sample.backdate_3) (Sample.row 3))
    = updated_at (Sample.row 3) /\
  created_at (Sample.row 3) = 3 /\
  created_at (Postgrest.patch (body Sample.backdate_3) (Sample.row 3)) = 1000 /\
  updated_at (Postgrest.patch (body Sample.backdate_3) (Sample.row 3))
    < created_at (Postgrest.patch (body Sample.backdate_3) (Sample.row 3)).
Proof. split; [vm_compute; reflexivity|]. by vm_compute. Qed.

(** Without created_at in the body, the update still leaves updated_at
    as it was. *)
Lemma supabase_update_keeps_updated_at :
  (serve SupabaseServer Sample.rename_3 Sample.w11).1 =
    inr (mkResponse 200
           (BMessage "✅ Client updated successfully"
              (Some (Postgrest.patch (body Sample.rename_3) (Sample.row 3))))) /\
  full_name (Postgrest.patch (body Sample.rename_3) (Sample.row 3)) = JStr "Alice B." /\
  updated_at (Postgrest.patch (body Sample.rename_3) (Sample.row 3))
    = updated_at (Sample.row 3).
Proof. split; [vm_compute; reflexivity|]. by vm_compute. Qed.

(** ** The CORS gate *)

(** Refutes the membership [H] of a value in an explicit list none of
    whose elements it can equal. *)
Ltac not_member H :=
  repeat (apply elem_of_cons in H as [H | H]; [discriminate|]);
  by apply elem_of_nil in H.






(** ** Process start *)

(** C8. In the supabase variant, when SUPABASE_KEY is absent from the
    environment (or empty), the process prints an error and exits with
    code 1, and never listens. In the pg variant the process listens and
    never exits, whether DATABASE_URL is set or not. *)
Theorem startup_aborts_without_key (env : gmap string string) :
  (JS.falsy (env !! "SUPABASE_KEY") = true ->
     Startup.supabase env =
       [ Startup.ConsoleError "❌ SUPABASE_KEY is not set. Add it to your .env file.";
         Startup.Exit 1 ] /\
     Startup.exits (Startup.supabase env) /\
     ~ Startup.listens (Startup.supabase env)) /\
  (JS.falsy (env !! "SUPABASE_KEY") = false ->
     Startup.listens (Startup.supabase env) /\ ~ Startup.exits (Startup.supabase env)) /\
  Startup.listens (Startup.pg env) /\
  ~ Startup.exits (Startup.pg env).
Proof.
  unfold Startup.supabase, Startup.pg, Startup.exits, Startup.listens.
  split; [|split; [|split]].
  - intros ->. split; [done|]. split.
    + exists 1. apply list_elem_of_lookup. by exists 1%nat.
    + intros [p Hp]. not_member Hp.
  - intros ->. split.
    + eexists. apply list_elem_of_lookup. by exists 2%nat.
    + intros [c Hc]. not_member Hc.
  - eexists. apply list_elem_of_lookup. by exists 3%nat.
  - intros [c Hc]. not_member Hc.
Qed.

Lemma startup_aborts_without_key_witness :
  JS.falsy ((∅ : gmap string string) !! "SUPABASE_KEY") = true /\
  Startup.supabase ∅ =
    [ Startup.ConsoleError "❌ SUPABASE_KEY is not set. Add it to your .env file.";
      Startup.Exit 1 ] /\
  JS.falsy (Sample.with_key !! "SUPABASE_KEY") = false /\
  Startup.listens (Startup.supabase Sample.with_key).
Proof.
  assert (H1 : JS.falsy ((∅ : gmap string string) !! "SUPABASE_KEY") = true)
    by reflexivity.
  assert (H2 : JS.falsy (Sample.with_key !! "SUPABASE_KEY") = false)
    by (vm_compute; reflexivity).
  split; [exact H1|]. split.
  - exact (proj1 (proj1 (startup_aborts_without_key ∅) H1)).
  - split; [exact H2|].
    exact (proj1 (proj1 (proj2 (startup_aborts_without_key Sample.with_key)) H2)).
Defined.

(** C8 as stated fails on the pg variant: with an empty environment,
    so without DATABASE_URL, the process listens and does not exit. *)
Lemma pg_starts_without_database_url :
  ((∅ : gmap string string) !! "DATABASE_URL") = None /\
  Startup.Listen "4000" ∈ Startup.pg ∅ /\
  ~ Startup.exits (Startup.pg ∅).
Proof.
  split; [reflexivity|]. split.
  - apply list_elem_of_lookup. by exists 3%nat.
  - intros [c Hc]. unfold Startup.pg in Hc. not_member Hc.
Qed.

(** ** Storage failures *)

Lemma pool_query_inr_history {A} (stmt : Pg.Stmt A) (w w' : World) (a : A) :
  Pg.pool_query stmt w = (inr a, w') -> failed_calls w' = failed_calls w.
Proof. intros H. by apply pool_query_inr in H as (_ & d & _ & ->). Qed.

(** The three ways a query of the supabase client ends: the promise is
    rejected, the reply carries an error, or the reply carries rows; only
    the last leaves the history of failures as it was. *)
Lemma call_cases {A} (stmt : Db -> Z -> Supabase.Result A * Db) (w : World) :
  (exists e w', Postgrest.call stmt w = (inl e, w')) \/
  (exists r e w', Postgrest.call stmt w = (inr r, w') /\ Supabase.error r = Some e) \/
  (exists r w', Postgrest.call stmt w = (inr r, w') /\ Supabase.error r = None /\
                failed_calls w' = failed_calls w).
Proof.
  unfold Postgrest.call. destruct (fault _) as [e|]; [left; eauto|].
  destruct (stmt _ _) as [r d]. destruct (Supabase.error r) as [e|] eqn:He.
  - right; left. eauto.
  - right; right. eauto.
Qed.

Lemma pg_failure_500 (req : Request) (w : World) :
  failed_calls (Pg.handler req w).2 ≠ failed_calls w ->
  (Pg.handler req w).1 = inr (mkResponse 500 (BError (failure_message (route req)))).
Proof.
  unfold Pg.handler.
  destruct (route req) as [| |j| |j|j]; simpl.
  - done.
  - unfold Pg.get_clients. run.
    destruct (Pg.pool_query _ w) as [[e|rows] w1] eqn:H1; [done|].
    apply pool_query_inr_history in H1.
    destruct (Pg.pool_query _ w1) as [[e|n] w2] eqn:H2; [done|].
    apply pool_query_inr_history in H2. simpl. congruence.
  - unfold Pg.get_client. run.
    destruct (Pg.pool_query _ w) as [[e|rows] w1] eqn:H1; [done|].
    apply pool_query_inr_history in H1. by destruct rows.
  - unfold Pg.post_client. run.
    destruct (Pg.pool_query _ w) as [[e|rows] w1] eqn:H1; [done|].
    by apply pool_query_inr_history in H1.
  - unfold Pg.put_client. run.
    destruct (Pg.pool_query _ w) as [[e|rows] w1] eqn:H1; [done|].
    apply pool_query_inr_history in H1. by destruct rows.
  - unfold Pg.delete_client. run.
    destruct (Pg.pool_query _ w) as [[e|rows] w1] eqn:H1; [done|].
    apply pool_query_inr_history in H1. by destruct rows.
Qed.

Ltac one_query stmt w :=
  destruct (call_cases stmt w) as
    [(e & w1 & ->) | [(r & e & w1 & -> & He) | (r & w1 & -> & He & Hh)]];
  simpl; rewrite ?He; simpl; [done | done |].

Lemma supabase_failure_500 (req : Request) (w : World) :
  failed_calls (Supabase.handler (supabase := Postgrest.client) req w).2
    ≠ failed_calls w ->
  (Supabase.handler (supabase := Postgrest.client) req w).1 =
    inr (mkResponse 500 (BError (failure_message (route req)))).
Proof.
  unfold Supabase.handler.
  destruct (route req) as [| |j| |j|j]; simpl.
  - done.
  - unfold Supabase.get_clients, Supabase.throw_if. run. simpl.
    one_query Postgrest.rest_select_ordered w. done.
  - unfold Supabase.get_client, Supabase.throw_if. run. simpl.
    one_query (Postgrest.rest_select_single j) w. done.
  - unfold Supabase.post_client, Supabase.throw_if, Supabase.first_of. run. simpl.
    one_query (Postgrest.rest_insert (body req)) w. by destruct (Supabase.data r).
  - unfold Supabase.put_client, Supabase.throw_if, Supabase.first_of. run. simpl.
    one_query (Postgrest.rest_update (body req) j) w. by destruct (Supabase.data r).
  - unfold Supabase.delete_client, Supabase.throw_if, Supabase.first_of. run. simpl.
    one_query (Postgrest.rest_delete j) w. by destruct (Supabase.data r).
Qed.

(** *** The answer does not depend on the detail of a failure *)

Lemma same_print (l1 l2 : string) (w1 w2 : World) :
  same_but_details w1 w2 -> same_but_details (print l1 w1) (print l2 w2).
Proof. done. Qed.

Lemma same_step (w1 w2 w1' w2' : World) (d : Db) :
  same_but_details w1 w2 ->
  db w1' = d -> db w2' = d ->
  calls w1' = S (calls w1) -> calls w2' = S (calls w2) ->
  oracle w1' = oracle w1 -> oracle w2' = oracle w2 ->
  same_but_details w1' w2'.
Proof.
  intros (_ & Hcalls & Ho) Hd1 Hd2 Hc1 Hc2 Ho1 Ho2.
  split; [congruence|]. split; [congruence|]. by rewrite Ho1, Ho2.
Qed.

(** Two runs of one storage call from worlds which differ in the details
    of the faults both throw, or both return the same rows. *)
Lemma pool_query_related {A} (stmt : Pg.Stmt A) (w1 w2 : World) :
  same_but_details w1 w2 ->
  match Pg.pool_query stmt w1, Pg.pool_query stmt w2 with
  | (inl _, w1'), (inl _, w2') => same_but_details w1' w2'
  | (inr a1, w1'), (inr a2, w2') => a1 = a2 /\ same_but_details w1' w2'
  | _, _ => False
  end.
Proof.
  intros Hsame. pose proof Hsame as (Hdb & Hcalls & Ho). unfold Pg.pool_query.
  rewrite <- Hcalls, <- Hdb. destruct (Ho (calls w1)) as (Hnow & Hfault).
  rewrite <- Hnow.
  destruct (fault (oracle w1 (calls w1))) as [e1|],
    (fault (oracle w2 (calls w1))) as [e2|];
    try (by destruct Hfault as [H1 H2]; (discriminate H1 || discriminate H2)).
  - by apply (same_step w1 w2 _ _ (db w1)).
  - destruct (stmt _ _) as [[e|a] d]; [|split; [done|]];
      by apply (same_step w1 w2 _ _ d).
Qed.

Lemma call_related {A} (stmt : Db -> Z -> Supabase.Result A * Db) (w1 w2 : World) :
  same_but_details w1 w2 ->
  match Postgrest.call stmt w1, Postgrest.call stmt w2 with
  | (inl _, w1'), (inl _, w2') => same_but_details w1' w2'
  | (inr a1, w1'), (inr a2, w2') => a1 = a2 /\ same_but_details w1' w2'
  | _, _ => False
  end.
Proof.
  intros Hsame. pose proof Hsame as (Hdb & Hcalls & Ho). unfold Postgrest.call.
  rewrite <- Hcalls, <- Hdb. destruct (Ho (calls w1)) as (Hnow & Hfault).
  rewrite <- Hnow.
  destruct (fault (oracle w1 (calls w1))) as [e1|],
    (fault (oracle w2 (calls w1))) as [e2|];
    try (by destruct Hfault as [H1 H2]; (discriminate H1 || discriminate H2)).
  - by apply (same_step w1 w2 _ _ (db w1)).
  - destruct (stmt _ _) as [r d]. destruct (Supabase.error r);
      (split; [done|]); by apply (same_step w1 w2 _ _ d).
Qed.

Lemma pg_same_answer (req : Request) (w w2 : World) :
  same_but_details w w2 -> (Pg.handler req w2).1 = (Pg.handler req w).1.
Proof.
  intros Hsame. unfold Pg.handler.
  destruct (route req) as [| |j| |j|j]; simpl.
  - done.
  - unfold Pg.get_clients. run.
    pose proof (pool_query_related
      (Pg.sql_select_page 10 ((JS.or_default (JS.parseInt (query_page req)) 1 - 1) * 10))
      w w2 Hsame) as R.
    destruct (Pg.pool_query _ w) as [[e|rows] w1], (Pg.pool_query _ w2) as [[e2|rows2] w1'];
      try done.
    destruct R as (-> & R).
    pose proof (pool_query_related Pg.sql_count w1 w1' R) as R2.
    destruct (Pg.pool_query _ w1) as [[e|n] w3], (Pg.pool_query _ w1') as [[e2|n2] w3'];
      try done.
    by destruct R2 as (-> & _).
  - unfold Pg.get_client. run.
    pose proof (pool_query_related (Pg.sql_select_by_id j) w w2 Hsame) as R.
    destruct (Pg.pool_query _ w) as [[e|rows] w1], (Pg.pool_query _ w2) as [[e2|rows2] w1'];
      try done.
    destruct R as (-> & R). by destruct rows2.
  - unfold Pg.post_client. run.
    pose proof (pool_query_related (Pg.sql_insert (Pg.fields_of_body (body req))) w w2 Hsame) as R.
    destruct (Pg.pool_query _ w) as [[e|rows] w1], (Pg.pool_query _ w2) as [[e2|rows2] w1'];
      try done.
    by destruct R as (-> & R).
  - unfold Pg.put_client. run.
    pose proof (pool_query_related (Pg.sql_update (Pg.fields_of_body (body req)) j) w w2 Hsame) as R.
    destruct (Pg.pool_query _ w) as [[e|rows] w1], (Pg.pool_query _ w2) as [[e2|rows2] w1'];
      try done.
    destruct R as (-> & R). by destruct rows2.
  - unfold Pg.delete_client. run.
    pose proof (pool_query_related (Pg.sql_delete j) w w2 Hsame) as R.
    destruct (Pg.pool_query _ w) as [[e|rows] w1], (Pg.pool_query _ w2) as [[e2|rows2] w1'];
      try done.
    destruct R as (-> & R). by destruct rows2.
Qed.

Ltac same_reply stmt w w2 Hsame :=
  let R := fresh "R" in
  pose proof (call_related stmt w w2 Hsame) as R;
  destruct (Postgrest.call stmt w) as [[?|?r] ?], (Postgrest.call stmt w2) as [[?|?r] ?];
  try done; destruct R as (-> & R); simpl.

Lemma supabase_same_answer (req : Request) (w w2 : World) :
  same_but_details w w2 ->
  (Supabase.handler (supabase := Postgrest.client) req w2).1 =
  (Supabase.handler (supabase := Postgrest.client) req w).1.
Proof.
  intros Hsame. unfold Supabase.handler.
  destruct (route req) as [| |j| |j|j]; simpl.
  - done.
  - unfold Supabase.get_clients, Supabase.throw_if. run. simpl.
    same_reply Postgrest.rest_select_ordered w w2 Hsame.
    by destruct (Supabase.error _).
  - unfold Supabase.get_client, Supabase.throw_if. run. simpl.
    same_reply (Postgrest.rest_select_single j) w w2 Hsame.
    by destruct (Supabase.error _).
  - unfold Supabase.post_client, Supabase.throw_if, Supabase.first_of. run. simpl.
    same_reply (Postgrest.rest_insert (body req)) w w2 Hsame.
    destruct (Supabase.error _); [done|]. by destruct (Supabase.data _).
  - unfold Supabase.put_client, Supabase.throw_if, Supabase.first_of. run. simpl.
    same_reply (Postgrest.rest_update (body req) j) w w2 Hsame.
    destruct (Supabase.error _); [done|]. by destruct (Supabase.data _).
  - unfold Supabase.delete_client, Supabase.throw_if, Supabase.first_of. run. simpl.
    same_reply (Postgrest.rest_delete j) w w2 Hsame.
    destruct (Supabase.error _); [done|]. by destruct (Supabase.data _).
Qed.

(** C7. In both variants, when a storage call fails while a request is
    handled, the answer is status 500 with the body {error: m}, where m
    is the fixed message of the route; and the answer is the same in any
    two worlds which differ only in the details of the storage faults, so
    no detail of a fault reaches the body. *)
Theorem storage_failure_generic_500 (v : Variant) (req : Request) (w : World) :
  (failed_calls (serve v req w).2 ≠ failed_calls w ->
   (serve v req w).1 =
     inr (mkResponse 500 (BError (failure_message (route req))))) /\
  (forall w2, same_but_details w w2 -> (serve v req w2).1 = (serve v req w).1).
Proof.
  destruct v; simpl; split.
  - apply pg_failure_500.
  - intros w2. apply pg_same_answer.
  - apply supabase_failure_500.
  - intros w2. apply supabase_same_answer.
Qed.

Lemma storage_failure_generic_500_witness :
  failed_calls (serve PgServer Sample.get_12 Sample.refused).2
    ≠ failed_calls Sample.refused /\
  same_but_details Sample.refused Sample.timed_out /\
  (serve PgServer Sample.get_12 Sample.refused).1 =
    inr (mkResponse 500 (BError "Failed to fetch client")) /\
  (serve PgServer Sample.get_12 Sample.timed_out).1 =
    (serve PgServer Sample.get_12 Sample.refused).1.
Proof.
  assert (H1 : failed_calls (serve PgServer Sample.get_12 Sample.refused).2
               ≠ failed_calls Sample.refused) by (vm_compute; discriminate).
  assert (H2 : same_but_details Sample.refused Sample.timed_out).
  { split; [reflexivity|]. split; [reflexivity|]. intros [|i]; by split. }
  split; [exact H1|]. split; [exact H2|]. split.
  - exact (proj1 (storage_failure_generic_500 PgServer Sample.get_12 Sample.refused) H1).
  - exact (proj2 (storage_failure_generic_500 PgServer Sample.get_12 Sample.refused)
             _ H2).
Defined.

(** * Further properties of the handlers *)

(** ** Ids stay unique *)

Lemma fresh_same_rows (d d' : Db) :
  table d' = table d -> next_id d <= next_id d' -> ids_fresh d -> ids_fresh d'.
Proof.
  intros Ht Hn (Hnd & Hlt). split; rewrite Ht; [done|].
  intros c Hc. specialize (Hlt c Hc). lia.
Qed.

Lemma select_page_keeps_fresh (limit offset : Z) :
  keeps_fresh (Pg.sql_select_page limit offset).
Proof.
  intros d t r d' Hd. unfold Pg.sql_select_page.
  repeat case_match; intros [= <- <-]; (split; [done | lia]).
Qed.

Lemma count_keeps_fresh : keeps_fresh Pg.sql_count.
Proof. intros d t r d' Hd [= <- <-]. split; [done | lia]. Qed.

Lemma select_by_id_keeps_fresh (i : string) : keeps_fresh (Pg.sql_select_by_id i).
Proof.
  intros d t r d' Hd. unfold Pg.sql_select_by_id.
  case_match; intros [= <- <-]; (split; [done | lia]).
Qed.

Lemma insert_keeps_fresh (f : Pg.Fields) : keeps_fresh (Pg.sql_insert f).
Proof.
  intros d t r d' (Hnd & Hlt). unfold Pg.sql_insert.
  assert (Hnew : next_id d ∉ id <$> table d).
  { intros Hin. apply list_elem_of_fmap in Hin as (x & Hx & Hin).
    specialize (Hlt x Hin). lia. }
  case_match; intros [= <- <-]; simpl; (split; [|lia]).
  1: { split; [done|]. intros x Hx. specialize (Hlt x Hx). simpl. lia. }
  all: split; simpl;
    [ rewrite fmap_app; apply NoDup_app; split; [done|]; split;
      [ intros x Hx Hx'; apply list_elem_of_singleton in Hx'; simpl in Hx'; by subst
      | apply NoDup_singleton ]
    | intros x Hx; apply elem_of_app in Hx as [Hx | Hx];
      [ specialize (Hlt x Hx); lia
      | apply list_elem_of_singleton in Hx as ->; simpl; lia ] ].
Qed.

Lemma update_keeps_ids (f : Pg.Fields) (t n : Z) (rows : list Client) :
  id <$> ((fun c => if has_id n c then Pg.set_fields f t c else c) <$> rows)
  = id <$> rows.
Proof.
  rewrite <- list_fmap_compose. apply list_fmap_ext. intros _ c _. simpl.
  by destruct (has_id n c).
Qed.

Lemma update_keeps_fresh (f : Pg.Fields) (i : string) : keeps_fresh (Pg.sql_update f i).
Proof.
  intros d t r d' Hd. unfold Pg.sql_update.
  repeat case_match; intros [= <- <-]; try (split; [done | lia]).
  all: destruct Hd as (Hnd & Hlt); split; [|simpl; lia]; split; simpl;
    [ by rewrite update_keeps_ids
    | intros x Hx; apply list_elem_of_fmap in Hx as (x0 & -> & Hx0);
      specialize (Hlt x0 Hx0); by case_match ].
Qed.

Lemma delete_keeps_fresh (i : string) : keeps_fresh (Pg.sql_delete i).
Proof.
  intros d t r d' (Hnd & Hlt). unfold Pg.sql_delete.
  case_match; intros [= <- <-]; (split; [|simpl; lia]); [|done].
  split; simpl.
  - apply (NoDup_fmap_2_strong id).
    + intros x y Hx Hy Hxy.
      apply list_elem_of_filter in Hx as (_ & Hx).
      apply list_elem_of_filter in Hy as (_ & Hy).
      apply list_elem_of_lookup in Hx as (ix & Hix).
      apply list_elem_of_lookup in Hy as (iy & Hiy).
      assert (ix = iy).
      { apply (NoDup_lookup (id <$> table d) ix iy (id x)); [done|..];
          rewrite list_lookup_fmap; [by rewrite Hix | by rewrite Hiy, Hxy]. }
      subst. congruence.
    + apply NoDup_filter.
      apply (NoDup_fmap_1 id). exact Hnd.
  - intros x Hx. apply list_elem_of_filter in Hx as (_ & Hx). by apply Hlt.
Qed.

Create HintDb fresh.

#[local] Hint Resolve select_page_keeps_fresh count_keeps_fresh
  select_by_id_keeps_fresh insert_keeps_fresh update_keeps_fresh
  delete_keeps_fresh : fresh.

Lemma pool_query_fresh {A} (stmt : Pg.Stmt A) (w w' : World) (r : string + A) :
  keeps_fresh stmt -> ids_fresh (db w) ->
  Pg.pool_query stmt w = (r, w') ->
  ids_fresh (db w') /\ next_id (db w) <= next_id (db w').
Proof.
  intros Hk Hf. unfold Pg.pool_query.
  destruct (fault _) as [e|].
  - intros [= <- <-]. simpl. split; [done | lia].
  - destruct (stmt _ _) as [[e|a] d] eqn:Hs; intros [= <- <-]; simpl;
      exact (Hk _ _ _ _ Hf Hs).
Qed.

Ltac fresh_call H Hf Hn :=
  apply pool_query_fresh in H as (Hf & Hn); [|auto with fresh..].

Lemma handler_fresh (req : Request) (w : World) :
  ids_fresh (db w) ->
  ids_fresh (db (Pg.handler req w).2) /\
  next_id (db w) <= next_id (db (Pg.handler req w).2).
Proof.
  intros Hf. unfold Pg.handler.
  destruct (route req) as [| |j| |j|j].
  - simpl. split; [done | lia].
  - unfold Pg.get_clients. run.
    destruct (Pg.pool_query _ w) as [[e|rows] w1] eqn:H1; fresh_call H1 Hf1 Hn1;
      [by split|].
    destruct (Pg.pool_query _ w1) as [[e|n] w2] eqn:H2; fresh_call H2 Hf2 Hn2;
      (split; [exact Hf2 | simpl; lia]).
  - unfold Pg.get_client. run.
    destruct (Pg.pool_query _ w) as [[e|rows] w1] eqn:H1; fresh_call H1 Hf1 Hn1;
      [by split|].
    by destruct rows.
  - unfold Pg.post_client. run.
    destruct (Pg.pool_query _ w) as [[e|rows] w1] eqn:H1; fresh_call H1 Hf1 Hn1;
      by split.
  - unfold Pg.put_client. run.
    destruct (Pg.pool_query _ w) as [[e|rows] w1] eqn:H1; fresh_call H1 Hf1 Hn1;
      [by split|].
    by destruct rows.
  - unfold Pg.delete_client. run.
    destruct (Pg.pool_query _ w) as [[e|rows] w1] eqn:H1; fresh_call H1 Hf1 Hn1;
      [by split|].
    by destruct rows.
Qed.

(** X1. In the pg variant, whatever requests are served and whatever
    storage calls fail, the ids of the table stay pairwise distinct and
    below the next value of the sequence, and the sequence never goes
    back: an id which was given is not given again, also after its record
    was deleted. *)
Theorem pg_ids_never_reused (reqs : list Request) (w : World) :
  ids_fresh (db w) ->
  ids_fresh (db (serve_all reqs w)) /\
  next_id (db w) <= next_id (db (serve_all reqs w)).
Proof.
  revert w. induction reqs as [|req reqs IH]; intros w Hf; simpl.
  - split; [done | lia].
  - destruct (handler_fresh req w Hf) as (Hf' & Hn).
    destruct (IH _ Hf') as (Hf'' & Hn'). split; [done | lia].
Qed.

Lemma empty_fresh : ids_fresh (db Sample.empty).
Proof.
  split; simpl; [apply NoDup_nil_2|]. intros c Hc. by apply elem_of_nil in Hc.
Defined.

Lemma pg_ids_never_reused_witness :
  ids_fresh (db Sample.empty) /\
  ids_fresh (db (serve_all [Sample.create_alice; More.delete_3; Sample.create_alice]
                   Sample.empty)) /\
  next_id (db Sample.empty) <=
    next_id (db (serve_all [Sample.create_alice; More.delete_3; Sample.create_alice]
                   Sample.empty)).
Proof.
  split; [exact empty_fresh|].
  exact (pg_ids_never_reused _ Sample.empty empty_fresh).
Defined.

(** ** Writing, then reading back *)

Lemma scan_to_uint (p : positive) :
  JS.scan_digits 10 (NilEmpty.string_of_uint (Pos.to_uint p)) 0 false
  = (Some (Z.pos p), EmptyString).
Proof.
  pose proof (to_uint_not_nil p) as Hnil.
  change (Z.pos p) with (Z.of_N (N.pos p)).
  rewrite <- (DecimalPos.Unsigned.of_to p), <- uint_value_0.
  destruct (Pos.to_uint p); [done|..]; simpl; apply scan_uint.
Qed.

(** The decimal text of an id which fits the integer column is read
    back as that id. *)
Lemma pg_int4_in_int8_out (n : Z) :
  -2147483648 <= n <= 2147483647 -> pg_int4_in (int8_out n) = Some n.
Proof.
  intros Hn.
  assert (Hrange : forall v, v = n ->
    (if (-2147483648 <=? v) && (v <=? 2147483647) then Some v else None) = Some n).
  { intros v ->.
    assert (((-2147483648 <=? n) && (n <=? 2147483647)) = true) as ->; [|done].
    apply andb_true_intro. split; apply Z.leb_le; lia. }
  unfold int8_out. destruct n as [|p|p]; [reflexivity|..]; simpl.
  - unfold pg_int4_in.
    assert (JS.strip_sign (JS.trim_start (NilEmpty.string_of_uint (Pos.to_uint p)))
            = (1, NilEmpty.string_of_uint (Pos.to_uint p))) as ->.
    { pose proof (to_uint_not_nil p). by destruct (Pos.to_uint p). }
    rewrite scan_to_uint. simpl JS.trim_start. cbv iota. apply Hrange. lia.
  - unfold pg_int4_in.
    change (JS.strip_sign (JS.trim_start
              (String "-" (NilEmpty.string_of_uint (Pos.to_uint p)))))
      with (-1, NilEmpty.string_of_uint (Pos.to_uint p)).
    cbv beta iota.
    rewrite scan_to_uint. simpl JS.trim_start. cbv iota. apply Hrange. lia.
Qed.

Lemma filter_id_fmap (g : Client -> Client) (n : Z) (rows : list Client) :
  (forall c, id (g c) = id c) ->
  filter (fun c => has_id n c = true) (g <$> rows)
  = g <$> filter (fun c => has_id n c = true) rows.
Proof.
  intros Hg. induction rows as [|c rows IH]; [done|].
  rewrite fmap_cons, !filter_cons, IH.
  assert (Hsame : has_id n (g c) = has_id n c) by (unfold has_id; by rewrite (Hg c)).
  rewrite Hsame. by destruct (decide (has_id n c = true)).
Qed.

Lemma filter_new_row (n : Z) (rows : list Client) (c : Client) :
  id c = n -> (forall x, x ∈ rows -> id x < n) ->
  filter (fun c => has_id n c = true) (rows ++ [c])%list = [c].
Proof.
  intros Hc Hlt. rewrite filter_app.
  assert (filter (fun c => has_id n c = true) rows = []) as ->.
  { destruct (filter _ rows) as [|x rest] eqn:Hf; [done|].
    assert (Hx : x ∈ filter (fun c => has_id n c = true) rows) by (rewrite Hf; left).
    apply list_elem_of_filter in Hx as (Hid & Hx).
    unfold has_id in Hid. apply bool_decide_eq_true in Hid.
    specialize (Hlt x Hx). lia. }
  simpl. rewrite filter_cons, filter_nil. unfold has_id.
  by rewrite decide_True by (by apply bool_decide_eq_true).
Qed.

Lemma filter_deleted (n : Z) (rows : list Client) :
  filter (fun c => has_id n c = true) (filter (fun c => has_id n c = false) rows) = [].
Proof.
  destruct (filter _ (filter _ rows)) as [|x rest] eqn:Hf; [done|].
  assert (Hx : x ∈ filter (fun c => has_id n c = true)
                      (filter (fun c => has_id n c = false) rows))
    by (rewrite Hf; left).
  apply list_elem_of_filter in Hx as (Hid & Hx).
  apply list_elem_of_filter in Hx as (Hid' & _). congruence.
Qed.

Lemma get_client_ok (i : string) (n : Z) (w : World) :
  pg_int4_in i = Some n ->
  fault (oracle w (calls w)) = None ->
  (Pg.get_client i w).1 =
    match filter (fun c => has_id n c = true) (table (db w)) with
    | [] => inr (mkResponse 404 (BError "Client not found"))
    | c :: _ => inr (mkResponse 200 (BClient c))
    end.
Proof.
  intros Hi Hf. unfold Pg.get_client. run.
  rewrite (pool_query_run _ w Hf). unfold Pg.sql_select_by_id. rewrite Hi.
  by destruct (filter _ _).
Qed.

(** X2. In the pg variant, when the ids of the table are fresh, a
    client which was just created is got back by the id the creation
    answered with: the get answers 200 with the very record of the
    creation's answer, provided the storage call of the get does not fail
    and the id fits the integer column. *)
Theorem pg_create_then_get (req : Request) (w w1 : World) (msg : string) (c : Client) :
  ids_fresh (db w) ->
  Pg.post_client req w = (inr (mkResponse 200 (BMessage msg (Some c))), w1) ->
  -2147483648 <= id c <= 2147483647 ->
  fault (oracle w1 (calls w1)) = None ->
  (Pg.get_client (int8_out (id c)) w1).1 = inr (mkResponse 200 (BClient c)).
Proof.
  intros (_ & Hlt) Hpost Hrange Hf.
  rewrite (get_client_ok _ (id c)) by (by try apply pg_int4_in_int8_out).
  revert Hpost. unfold Pg.post_client. run.
  destruct (Pg.pool_query _ w) as [[e|rows] w0] eqn:Hq; [discriminate|].
  apply pool_query_inr in Hq as (_ & d & Hs & ->).
  apply insert_row in Hs as (-> & Htab & _). simpl.
  intros [= <- <- <-]. simpl. rewrite Htab.
  by rewrite filter_new_row.
Qed.

Lemma pg_create_then_get_witness :
  ids_fresh (db Sample.empty) /\
  Pg.post_client Sample.create_alice Sample.empty =
    (inr (mkResponse 200 (BMessage "✅ Client added successfully" (Some More.alice_1))),
     (Pg.post_client Sample.create_alice Sample.empty).2) /\
  -2147483648 <= id More.alice_1 <= 2147483647 /\
  fault (oracle (Pg.post_client Sample.create_alice Sample.empty).2
           (calls (Pg.post_client Sample.create_alice Sample.empty).2)) = None /\
  (Pg.get_client (int8_out (id More.alice_1))
     (Pg.post_client Sample.create_alice Sample.empty).2).1 =
    inr (mkResponse 200 (BClient More.alice_1)).
Proof.
  assert (H : Pg.post_client Sample.create_alice Sample.empty =
    (inr (mkResponse 200 (BMessage "✅ Client added successfully" (Some More.alice_1))),
     (Pg.post_client Sample.create_alice Sample.empty).2))
    by (vm_compute; reflexivity).
  assert (H2 : -2147483648 <= id More.alice_1 <= 2147483647) by (simpl; lia).
  assert (H3 : fault (oracle (Pg.post_client Sample.create_alice Sample.empty).2
           (calls (Pg.post_client Sample.create_alice Sample.empty).2)) = None)
    by reflexivity.
  split; [exact empty_fresh|]. split; [exact H|]. split; [exact H2|].
  split; [exact H3|].
  exact (pg_create_then_get _ _ _ _ _ empty_fresh H H2 H3).
Defined.

(** X3. In the pg variant, a client which was just updated is got back
    as updated: after a successful update, a get of the same id answers
    200 with the very record of the update's answer, provided the storage
    call of the get does not fail. *)
Theorem pg_update_then_get (i : string) (req : Request) (w w1 : World)
    (msg : string) (c : Client) :
  Pg.put_client i req w = (inr (mkResponse 200 (BMessage msg (Some c))), w1) ->
  fault (oracle w1 (calls w1)) = None ->
  (Pg.get_client i w1).1 = inr (mkResponse 200 (BClient c)).
Proof.
  unfold Pg.put_client. run.
  destruct (Pg.pool_query _ w) as [[e|rows] w0] eqn:Hq; [discriminate|].
  apply pool_query_inr in Hq as (_ & d & Hs & ->).
  apply update_rows in Hs as (n & Hi & -> & Htab & _).
  destruct (filter _ (table (db w))) as [|c0 rest] eqn:Hfil; [discriminate|].
  simpl. intros [= <- <- <-] Hf.
  rewrite (get_client_ok _ n) by done. simpl. rewrite Htab.
  rewrite filter_id_fmap by (intros x; by destruct (has_id n x)).
  rewrite Hfil. simpl.
  assert (Hc0 : c0 ∈ filter (fun c => has_id n c = true) (table (db w)))
    by (rewrite Hfil; left).
  apply list_elem_of_filter in Hc0 as (-> & _). done.
Qed.

Lemma pg_update_then_get_witness :
  Pg.put_client "3" Sample.rename_3 Sample.w11 =
    (inr (mkResponse 200
            (BMessage "✅ Client updated successfully"
               (Some (Pg.set_fields (Pg.fields_of_body (body Sample.rename_3)) 100
                        (Sample.row 3))))),
     (Pg.put_client "3" Sample.rename_3 Sample.w11).2) /\
  fault (oracle (Pg.put_client "3" Sample.rename_3 Sample.w11).2
           (calls (Pg.put_client "3" Sample.rename_3 Sample.w11).2)) = None /\
  (Pg.get_client "3" (Pg.put_client "3" Sample.rename_3 Sample.w11).2).1 =
    inr (mkResponse 200
           (BClient (Pg.set_fields (Pg.fields_of_body (body Sample.rename_3)) 100
                       (Sample.row 3)))).
Proof.
  assert (H : Pg.put_client "3" Sample.rename_3 Sample.w11 =
    (inr (mkResponse 200
            (BMessage "✅ Client updated successfully"
               (Some (Pg.set_fields (Pg.fields_of_body (body Sample.rename_3)) 100
                        (Sample.row 3))))),
     (Pg.put_client "3" Sample.rename_3 Sample.w11).2))
    by (vm_compute; reflexivity).
  assert (H2 : fault (oracle (Pg.put_client "3" Sample.rename_3 Sample.w11).2
           (calls (Pg.put_client "3" Sample.rename_3 Sample.w11).2)) = None)
    by reflexivity.
  split; [exact H|]. split; [exact H2|].
  exact (pg_update_then_get "3" _ _ _ _ _ H H2).
Defined.

(** X4. In the pg variant, a successful delete answers with a record of
    the table which had the id of the path, removes every record with
    that id and no other, and a get of the same id which follows, with a
    storage call which does not fail, answers 404. *)
Theorem pg_delete_then_get_404 (i : string) (w w1 : World) (msg : string) (c : Client) :
  Pg.delete_client i w = (inr (mkResponse 200 (BMessage msg (Some c))), w1) ->
  c ∈ table (db w) /\
  pg_int4_in i = Some (id c) /\
  table (db w1) = filter (fun x => has_id (id c) x = false) (table (db w)) /\
  (fault (oracle w1 (calls w1)) = None ->
   (Pg.get_client i w1).1 = inr (mkResponse 404 (BError "Client not found"))).
Proof.
  unfold Pg.delete_client. run.
  destruct (Pg.pool_query _ w) as [[e|rows] w0] eqn:Hq; [discriminate|].
  apply pool_query_inr in Hq as (_ & d & Hs & ->).
  unfold Pg.sql_delete in Hs. destruct (pg_int4_in i) as [n|] eqn:Hi; [|discriminate].
  injection Hs as <- <-.
  destruct (filter _ (table (db w))) as [|c0 rest] eqn:Hfil; [discriminate|].
  simpl. intros [= <- <- <-].
  assert (Hc0 : c0 ∈ filter (fun c => has_id n c = true) (table (db w)))
    by (rewrite Hfil; left).
  apply list_elem_of_filter in Hc0 as (Hid & Hc0).
  unfold has_id in Hid. apply bool_decide_eq_true in Hid. subst n.
  split; [done|]. split; [done|]. split; [done|].
  intros Hf. rewrite (get_client_ok _ (id c0)) by done. simpl.
  by rewrite filter_deleted.
Qed.

Lemma pg_delete_then_get_404_witness :
  Pg.delete_client "3" Sample.w11 =
    (inr (mkResponse 200 (BMessage "✅ Client deleted successfully" (Some (Sample.row 3)))),
     (Pg.delete_client "3" Sample.w11).2) /\
  Sample.row 3 ∈ table (db Sample.w11) /\
  pg_int4_in "3" = Some (id (Sample.row 3)) /\
  table (db (Pg.delete_client "3" Sample.w11).2)
    = filter (fun x => has_id (id (Sample.row 3)) x = false) (table (db Sample.w11)) /\
  (fault (oracle (Pg.delete_client "3" Sample.w11).2
            (calls (Pg.delete_client "3" Sample.w11).2)) = None ->
   (Pg.get_client "3" (Pg.delete_client "3" Sample.w11).2).1
     = inr (mkResponse 404 (BError "Client not found"))).
Proof.
  assert (H : Pg.delete_client "3" Sample.w11 =
    (inr (mkResponse 200 (BMessage "✅ Client deleted successfully" (Some (Sample.row 3)))),
     (Pg.delete_client "3" Sample.w11).2)) by (vm_compute; reflexivity).
  split; [exact H|]. exact (pg_delete_then_get_404 "3" _ _ _ _ H).
Defined.

(** ** Edge cases of the pg handlers *)

Lemma surely_malformed_int4 (i : string) :
  surely_malformed i = true -> pg_int4_in i = None.
Proof.
  unfold surely_malformed, pg_int4_in.
  destruct (JS.strip_sign (JS.trim_start i)) as [sign s1]. simpl.
  destruct s1 as [|c s1]; [done|]. intros H.
  apply andb_prop in H as (H & _). apply negb_true_iff in H.
  simpl. unfold JS.digit_value. rewrite H.
  destruct ((97 <=? JS.code c) && (JS.code c <=? 122)) eqn:E1.
  - assert ((JS.code c - 87 <? 10) = false) as -> by lia. done.
  - destruct ((65 <=? JS.code c) && (JS.code c <=? 90)) eqn:E2; [|done].
    assert ((JS.code c - 55 <? 10) = false) as -> by lia. done.
Qed.

(** X5. In the pg variant, an id in the path which no syntax of integers
    fits (after blanks and a sign it does not start with a digit or an
    underscore, so that every version of the database refuses it) makes
    get, update and delete answer 500 with the message of the route, not
    404, and the table is left as it was. *)
Theorem pg_malformed_id_500 (req : Request) (w : World) (i : string) :
  by_id (route req) = Some i ->
  surely_malformed i = true ->
  (Pg.handler req w).1 = inr (mkResponse 500 (BError (failure_message (route req)))) /\
  db (Pg.handler req w).2 = db w.
Proof.
  intros Hroute Hi. apply surely_malformed_int4 in Hi. unfold Pg.handler.
  destruct (route req) as [| |j| |j|j]; simplify_eq/=.
  - unfold Pg.get_client, Pg.pool_query, Pg.sql_select_by_id. run. rewrite Hi.
    by destruct (fault _).
  - unfold Pg.put_client, Pg.pool_query, Pg.sql_update. run. rewrite Hi.
    by destruct (fault _).
  - unfold Pg.delete_client, Pg.pool_query, Pg.sql_delete. run. rewrite Hi.
    by destruct (fault _).
Qed.

Lemma pg_malformed_id_500_witness :
  by_id (route More.get_abc) = Some "abc" /\
  surely_malformed "abc" = true /\
  (Pg.handler More.get_abc Sample.w11).1 =
    inr (mkResponse 500 (BError (failure_message (route More.get_abc)))) /\
  db (Pg.handler More.get_abc Sample.w11).2 = db Sample.w11.
Proof.
  assert (H1 : by_id (route More.get_abc) = Some "abc") by reflexivity.
  assert (H2 : surely_malformed "abc" = true) by reflexivity.
  split; [exact H1|]. split; [exact H2|].
  exact (pg_malformed_id_500 More.get_abc Sample.w11 "abc" H1 H2).
Defined.

(** X6. In the pg variant, a creation whose body has no full_name, or a
    null one, is answered 500 with "Failed to add client", and no record
    is added. *)
Theorem pg_create_without_name_500 (req : Request) (w : World) :
  Pg.param (body req !! "full_name") = JNull ->
  (Pg.post_client req w).1 = inr (mkResponse 500 (BError "Failed to add client")) /\
  table (db (Pg.post_client req w).2) = table (db w).
Proof.
  intros Hname. unfold Pg.post_client, Pg.pool_query, Pg.sql_insert. run.
  destruct (fault _); [done|]. simpl. by rewrite Hname.
Qed.

Lemma pg_create_without_name_500_witness :
  Pg.param (body More.create_nameless !! "full_name") = JNull /\
  (Pg.post_client More.create_nameless Sample.w11).1 =
    inr (mkResponse 500 (BError "Failed to add client")) /\
  table (db (Pg.post_client More.create_nameless Sample.w11).2) = table (db Sample.w11).
Proof.
  assert (H : Pg.param (body More.create_nameless !! "full_name") = JNull)
    by (vm_compute; reflexivity).
  split; [exact H | exact (pg_create_without_name_500 _ Sample.w11 H)].
Defined.

(** X7. In the pg variant, an update of an existing client whose body
    has no full_name, or a null one, is answered 500 with "Failed to
    update client", and the database is left as it was: the fields
    omitted are sent as NULL, which the column full_name refuses. *)
Theorem pg_update_without_name_500 (i : string) (n : Z) (req : Request)
    (w : World) (c : Client) :
  Pg.param (body req !! "full_name") = JNull ->
  pg_int4_in i = Some n ->
  c ∈ table (db w) -> id c = n ->
  (Pg.put_client i req w).1 = inr (mkResponse 500 (BError "Failed to update client")) /\
  db (Pg.put_client i req w).2 = db w.
Proof.
  intros Hname Hi Hc Hid. unfold Pg.put_client, Pg.pool_query, Pg.sql_update. run.
  destruct (fault _); [done|]. rewrite Hi. simpl.
  destruct (filter _ (table (db w))) as [|c0 rest] eqn:Hfil.
  - exfalso. apply (filter_nil_not_elem_of _ _ c Hfil); [|done].
    unfold has_id. by apply bool_decide_eq_true.
  - by rewrite Hname.
Qed.

Lemma pg_update_without_name_500_witness :
  Pg.param (body More.clear_name_3 !! "full_name") = JNull /\
  pg_int4_in "3" = Some 3 /\
  Sample.row 3 ∈ table (db Sample.w11) /\
  id (Sample.row 3) = 3 /\
  (Pg.put_client "3" More.clear_name_3 Sample.w11).1 =
    inr (mkResponse 500 (BError "Failed to update client")) /\
  db (Pg.put_client "3" More.clear_name_3 Sample.w11).2 = db Sample.w11.
Proof.
  assert (H1 : Pg.param (body More.clear_name_3 !! "full_name") = JNull)
    by (vm_compute; reflexivity).
  assert (H2 : pg_int4_in "3" = Some 3) by reflexivity.
  assert (H3 : Sample.row 3 ∈ table (db Sample.w11)).
  { apply list_elem_of_lookup. by exists 2%nat. }
  assert (H4 : id (Sample.row 3) = 3) by reflexivity.
  split; [exact H1|]. split; [exact H2|]. split; [exact H3|]. split; [exact H4|].
  exact (pg_update_without_name_500 "3" 3 _ Sample.w11 _ H1 H2 H3 H4).
Defined.

(** ** What the handlers never do *)

(** The ways one [pool.query] ends, with what it leaves behind. *)
Lemma pool_query_outcome {A} (stmt : Pg.Stmt A) (w : World) :
  exists w1,
    calls w1 = S (calls w) /\ console w1 = console w /\ oracle w1 = oracle w /\
    ((exists a, Pg.pool_query stmt w = (inr a, w1) /\
                failed_calls w1 = failed_calls w /\
                fault (oracle w (calls w)) = None /\
                stmt (db w) (now (oracle w (calls w))) = (inr a, db w1)) \/
     (exists e, Pg.pool_query stmt w = (inl e, w1) /\
                failed_calls w1 = (failed_calls w ++ [e])%list /\
                (db w1 = db w \/
                 stmt (db w) (now (oracle w (calls w))) = (inl e, db w1)))).
Proof.
  unfold Pg.pool_query. destruct (fault _) as [e|].
  - exists (record_failure e (tick w)). do 3 (split; [done|]).
    right. exists e. do 2 (split; [done|]). by left.
  - destruct (stmt _ _) as [[e|a] d] eqn:Hs.
    + exists (record_failure e (set_db d (tick w))). do 3 (split; [done|]).
      right. exists e. do 2 (split; [done|]). by right.
    + exists (set_db d (tick w)). do 3 (split; [done|]).
      left. exists a. by repeat split.
Qed.

(** The ways one query of the supabase client over the table ends. *)
Lemma call_outcome {A} (stmt : Db -> Z -> Supabase.Result A * Db) (w : World) :
  exists w1,
    calls w1 = S (calls w) /\ console w1 = console w /\ oracle w1 = oracle w /\
    ((exists e, Postgrest.call stmt w = (inl e, w1) /\
                failed_calls w1 = (failed_calls w ++ [e])%list /\ db w1 = db w) \/
     (exists r, Postgrest.call stmt w = (inr r, w1) /\
                stmt (db w) (now (oracle w (calls w))) = (r, db w1) /\
                match Supabase.error r with
                | Some e => failed_calls w1 = (failed_calls w ++ [e])%list
                | None => failed_calls w1 = failed_calls w
                end)).
Proof.
  unfold Postgrest.call. destruct (fault _) as [e|].
  - exists (record_failure e (tick w)). do 3 (split; [done|]).
    left. by exists e.
  - destruct (stmt _ _) as [r d] eqn:Hs.
    destruct (Supabase.error r) as [e|] eqn:He.
    + exists (record_failure e (set_db d (tick w))). do 3 (split; [done|]).
      right. exists r. rewrite He. by repeat split.
    + exists (set_db d (tick w)). do 3 (split; [done|]).
      right. exists r. rewrite He. by repeat split.
Qed.

Ltac pg_call w :=
  let w1 := fresh "w1" in
  let Hc := fresh "Hcalls" in let Hp := fresh "Hcons" in let Ho := fresh "Horacle" in
  let a := fresh "rows" in let e := fresh "e" in
  let Hq := fresh "Hq" in let Hh := fresh "Hhist" in
  let Hf := fresh "Hfault" in let Hs := fresh "Hstmt" in
  match goal with
  | |- context [Pg.pool_query ?s w] =>
      destruct (pool_query_outcome s w) as
        (w1 & Hc & Hp & Ho & [(a & Hq & Hh & Hf & Hs) | (e & Hq & Hh & Hs)]);
      rewrite Hq
  end.

Lemma update_no_hit (f : Pg.Fields) (t n : Z) (rows : list Client) :
  filter (fun c => has_id n c = true) rows = [] ->
  (fun c => if has_id n c then Pg.set_fields f t c else c) <$> rows = rows.
Proof.
  intros Hnil. induction rows as [|c rows IH]; [done|].
  rewrite filter_cons in Hnil. rewrite fmap_cons.
  destruct (decide (has_id n c = true)) as [Hc|Hc]; [discriminate|].
  apply not_true_is_false in Hc. rewrite Hc. by rewrite IH.
Qed.

Lemma delete_no_hit (n : Z) (rows : list Client) :
  filter (fun c => has_id n c = true) rows = [] ->
  filter (fun c => has_id n c = false) rows = rows.
Proof.
  intros Hnil. induction rows as [|c rows IH]; [done|].
  rewrite filter_cons in Hnil. rewrite filter_cons.
  destruct (decide (has_id n c = true)) as [Hc|Hc]; [discriminate|].
  apply not_true_is_false in Hc.
  rewrite decide_True by done. by rewrite IH.
Qed.

(** A statement which fails leaves the records of the table alone. *)
Lemma failed_stmt_keeps_table {A} (stmt : Pg.Stmt A) (w w1 : World) (e : string) :
  (forall d t e d', stmt d t = (inl e, d') -> table d' = table d) ->
  db w1 = db w \/ stmt (db w) (now (oracle w (calls w))) = (inl e, db w1) ->
  table (db w1) = table (db w).
Proof. intros Hk [-> | Hs]; [done|]. by apply Hk in Hs. Qed.

Lemma select_page_reads (limit offset : Z) (d d' : Db) (t : Z) r :
  Pg.sql_select_page limit offset d t = (r, d') -> d' = d.
Proof. unfold Pg.sql_select_page. repeat case_match; by intros [= _ <-]. Qed.

Lemma count_reads (d d' : Db) (t : Z) r : Pg.sql_count d t = (r, d') -> d' = d.
Proof. by intros [= _ <-]. Qed.

Lemma select_by_id_reads (i : string) (d d' : Db) (t : Z) r :
  Pg.sql_select_by_id i d t = (r, d') -> d' = d.
Proof. unfold Pg.sql_select_by_id. case_match; by intros [= _ <-]. Qed.

Lemma insert_fails_table (f : Pg.Fields) (d : Db) (t : Z) (e : string) (d' : Db) :
  Pg.sql_insert f d t = (inl e, d') -> table d' = table d.
Proof. unfold Pg.sql_insert. case_match; by intros [= _ <-]. Qed.

Lemma update_fails_table (f : Pg.Fields) (i : string) (d : Db) (t : Z) (e : string)
    (d' : Db) :
  Pg.sql_update f i d t = (inl e, d') -> table d' = table d.
Proof. unfold Pg.sql_update. repeat case_match; by intros [= _ <-]. Qed.

Lemma delete_fails_table (i : string) (d : Db) (t : Z) (e : string) (d' : Db) :
  Pg.sql_delete i d t = (inl e, d') -> table d' = table d.
Proof. unfold Pg.sql_delete. case_match; by intros [= _ <-]. Qed.

Lemma update_nothing (f : Pg.Fields) (i : string) (d d' : Db) (t : Z) :
  Pg.sql_update f i d t = (inr [], d') -> table d' = table d.
Proof.
  unfold Pg.sql_update. destruct (pg_int4_in i) as [n|]; [|done].
  destruct (filter _ (table d)) as [|c0 rest] eqn:Hfil.
  - intros [= <-]. simpl. by apply update_no_hit.
  - by case_match.
Qed.

Lemma delete_nothing (i : string) (d d' : Db) (t : Z) :
  Pg.sql_delete i d t = (inr [], d') -> table d' = table d.
Proof.
  unfold Pg.sql_delete. destruct (pg_int4_in i) as [n|]; [|done].
  intros [= Hfil <-]. simpl. by apply delete_no_hit.
Qed.

(** X8. In the pg variant every request which reaches a handler is
    answered, with status 200, 404 or 500. Status 404 is answered only
    on the routes with an id, with the body {error: "Client not found"}
    and the table as it was before; status 500 always carries the fixed
    message of the route and leaves the records of the table as they
    were. *)
Theorem pg_answers (req : Request) (w : World) :
  exists r,
    (Pg.handler req w).1 = inr r /\
    (status r = 200 \/
     (status r = 404 /\ payload r = BError "Client not found" /\
      is_Some (by_id (route req)) /\
      table (db (Pg.handler req w).2) = table (db w)) \/
     (status r = 500 /\ payload r = BError (failure_message (route req)) /\
      table (db (Pg.handler req w).2) = table (db w))).
Proof.
  unfold Pg.handler.
  destruct (route req) as [| |j| |j|j].
  - eexists. split; [reflexivity|]. by left.
  - unfold Pg.get_clients. run. pg_call w.
    + apply select_page_reads in Hstmt.
      pg_call w1; eexists; (split; [reflexivity|]); [by left|].
      right; right. do 2 (split; [done|]). simpl.
      rewrite (failed_stmt_keeps_table _ _ _ _ (fun d t e d' H =>
                 f_equal table (count_reads d d' t _ H)) Hstmt0).
      by rewrite Hstmt.
    + eexists. split; [reflexivity|]. right; right. do 2 (split; [done|]). simpl.
      apply (failed_stmt_keeps_table _ _ _ _ (fun d t e d' H =>
               f_equal table (select_page_reads _ _ d d' t _ H)) Hstmt).
  - unfold Pg.get_client. run. pg_call w.
    + apply select_by_id_reads in Hstmt.
      destruct rows; eexists; (split; [reflexivity|]); simpl; [|by left].
      right; left. do 2 (split; [done|]). split; [by eexists|]. by rewrite Hstmt.
    + eexists. split; [reflexivity|]. right; right. do 2 (split; [done|]). simpl.
      apply (failed_stmt_keeps_table _ _ _ _ (fun d t e d' H =>
               f_equal table (select_by_id_reads _ d d' t _ H)) Hstmt).
  - unfold Pg.post_client. run. pg_call w.
    + eexists. split; [reflexivity|]. by left.
    + eexists. split; [reflexivity|]. right; right. do 2 (split; [done|]). simpl.
      apply (failed_stmt_keeps_table _ _ _ _ (insert_fails_table _) Hstmt).
  - unfold Pg.put_client. run. pg_call w.
    + destruct rows; eexists; (split; [reflexivity|]); simpl; [|by left].
      right; left. do 2 (split; [done|]). split; [by eexists|].
      by apply update_nothing in Hstmt.
    + eexists. split; [reflexivity|]. right; right. do 2 (split; [done|]). simpl.
      apply (failed_stmt_keeps_table _ _ _ _ (update_fails_table _ _) Hstmt).
  - unfold Pg.delete_client. run. pg_call w.
    + destruct rows; eexists; (split; [reflexivity|]); simpl; [|by left].
      right; left. do 2 (split; [done|]). split; [by eexists|].
      by apply delete_nothing in Hstmt.
    + eexists. split; [reflexivity|]. right; right. do 2 (split; [done|]). simpl.
      apply (failed_stmt_keeps_table _ _ _ _ (delete_fails_table _) Hstmt).
Qed.

(** A reply of the supabase client over the table which carries no
    error carries rows. *)
Lemma select_ordered_sound (d : Db) (t : Z) :
  is_Some (Supabase.data (Postgrest.rest_select_ordered d t).1) /\
  (Postgrest.rest_select_ordered d t).2 = d.
Proof. split; [by eexists | done]. Qed.

Lemma select_single_sound (i : string) (d : Db) (t : Z) :
  (Supabase.error (Postgrest.rest_select_single i d t).1 = None ->
   is_Some (Supabase.data (Postgrest.rest_select_single i d t).1)) /\
  (Postgrest.rest_select_single i d t).2 = d.
Proof.
  unfold Postgrest.rest_select_single. repeat case_match; simpl; split; try done;
    by eexists.
Qed.

Lemma insert_sound (b : gmap string Json) (d : Db) (t : Z) :
  Supabase.error (Postgrest.rest_insert b d t).1 = None ->
  is_Some (Supabase.data (Postgrest.rest_insert b d t).1).
Proof. unfold Postgrest.rest_insert. repeat case_match; simpl; try done; by eexists. Qed.

Lemma update_sound (b : gmap string Json) (i : string) (d : Db) (t : Z) :
  Supabase.error (Postgrest.rest_update b i d t).1 = None ->
  is_Some (Supabase.data (Postgrest.rest_update b i d t).1).
Proof. unfold Postgrest.rest_update. repeat case_match; simpl; try done; by eexists. Qed.

Lemma delete_sound (i : string) (d : Db) (t : Z) :
  Supabase.error (Postgrest.rest_delete i d t).1 = None ->
  is_Some (Supabase.data (Postgrest.rest_delete i d t).1).
Proof. unfold Postgrest.rest_delete. repeat case_match; simpl; try done; by eexists. Qed.

Ltac sb_call s w :=
  let w1 := fresh "w1" in
  let Hc := fresh "Hcalls" in let Hp := fresh "Hcons" in let Ho := fresh "Horacle" in
  let r := fresh "r" in let e := fresh "e" in
  let Hq := fresh "Hq" in let Hh := fresh "Hhist" in
  let Hd := fresh "Hdb" in let Hs := fresh "Hstmt" in
  destruct (call_outcome s w) as
    (w1 & Hc & Hp & Ho & [(e & Hq & Hh & Hd) | (r & Hq & Hs & Hh)]);
  rewrite Hq.

Ltac sb_unfold :=
  unfold Supabase.handler, Supabase.health, Supabase.get_clients,
    Supabase.get_client, Supabase.post_client, Supabase.put_client,
    Supabase.delete_client, Supabase.throw_if, Supabase.first_of; run; simpl.

(** X9. In both variants the routes which read (health, list, get by
    id) leave the database as it was, whether their storage calls succeed
    or fail. *)
Theorem reading_routes_keep_db (v : Variant) (req : Request) (w : World) :
  reads_only (route req) = true ->
  db (serve v req w).2 = db w.
Proof.
  intros Hread. destruct v; simpl.
  - unfold Pg.handler.
    destruct (route req) as [| |j| |j|j]; try discriminate.
    + done.
    + unfold Pg.get_clients. run. pg_call w.
      * apply select_page_reads in Hstmt.
        pg_call w1; simpl.
        -- apply count_reads in Hstmt0. congruence.
        -- destruct Hstmt0 as [? | Hs]; [congruence|].
           apply count_reads in Hs. congruence.
      * simpl. destruct Hstmt as [? | Hs]; [done|].
        by apply select_page_reads in Hs.
    + unfold Pg.get_client. run. pg_call w.
      * apply select_by_id_reads in Hstmt. by destruct rows.
      * simpl. destruct Hstmt as [? | Hs]; [done|].
        by apply select_by_id_reads in Hs.
  - destruct (route req) as [| |j| |j|j] eqn:Hroute; try discriminate;
      sb_unfold; rewrite Hroute.
    + done.
    + sb_call Postgrest.rest_select_ordered w; simpl; [done|].
      assert (db w1 = db w) by (by injection Hstmt).
      by destruct (Supabase.error r).
    + sb_call (Postgrest.rest_select_single j) w; simpl; [done|].
      assert (db w1 = db w).
      { pose proof (proj2 (select_single_sound j (db w) (now (oracle w (calls w))))) as H.
        by rewrite Hstmt in H. }
      by destruct (Supabase.error r).
Qed.

Lemma reading_routes_keep_db_witness :
  reads_only (route Sample.get_12) = true /\
  db (serve SupabaseServer Sample.get_12 Sample.refused).2 = db Sample.refused.
Proof.
  assert (H : reads_only (route Sample.get_12) = true) by reflexivity.
  split; [exact H | exact (reading_routes_keep_db SupabaseServer _ Sample.refused H)].
Defined.


(** X11. In both variants a request meets at most one failed storage
    call. When it meets none, nothing is printed on the console; when it
    meets one, exactly one line is printed: the prefix of the route's
    catch block followed by the detail of the failure. *)
Theorem failure_detail_is_logged (v : Variant) (req : Request) (w : World) :
  (failed_calls (serve v req w).2 = failed_calls w /\
   console (serve v req w).2 = console w) \/
  (exists e,
     failed_calls (serve v req w).2 = (failed_calls w ++ [e])%list /\
     console (serve v req w).2 =
       (console w ++ [(log_prefix (route req) ++ " " ++ e)%string])%list).
Proof.
  destruct v; simpl.
  - unfold Pg.handler.
    destruct (route req) as [| |j| |j|j].
    + by left.
    + unfold Pg.get_clients. run. pg_call w.
      * pg_call w1; simpl.
        -- left. split; congruence.
        -- right. exists e. split; congruence.
      * right. exists e. simpl. split; congruence.
    + unfold Pg.get_client. run. pg_call w.
      * left. by destruct rows.
      * right. exists e. simpl. split; congruence.
    + unfold Pg.post_client. run. pg_call w.
      * by left.
      * right. exists e. simpl. split; congruence.
    + unfold Pg.put_client. run. pg_call w.
      * left. by destruct rows.
      * right. exists e. simpl. split; congruence.
    + unfold Pg.delete_client. run. pg_call w.
      * left. by destruct rows.
      * right. exists e. simpl. split; congruence.
  - destruct (route req) as [| |j| |j|j] eqn:Hroute; sb_unfold; rewrite ?Hroute.
    + by left.
    + sb_call Postgrest.rest_select_ordered w; simpl.
      * right. exists e. split; congruence.
      * destruct (Supabase.error r) as [e|]; simpl.
        -- right. exists e. split; congruence.
        -- by left.
    + sb_call (Postgrest.rest_select_single j) w; simpl.
      * right. exists e. split; congruence.
      * destruct (Supabase.error r) as [e|]; simpl.
        -- right. exists e. split; congruence.
        -- by left.
    + sb_call (Postgrest.rest_insert (body req)) w; simpl.
      * right. exists e. split; congruence.
      * pose proof (insert_sound (body req) (db w) (now (oracle w (calls w)))) as Hs.
        rewrite Hstmt in Hs. simpl in Hs.
        destruct (Supabase.error r) as [e|]; simpl.
        -- right. exists e. split; congruence.
        -- destruct (Hs eq_refl) as [rows ->]. by left.
    + sb_call (Postgrest.rest_update (body req) j) w; simpl.
      * right. exists e. split; congruence.
      * pose proof (update_sound (body req) j (db w) (now (oracle w (calls w)))) as Hs.
        rewrite Hstmt in Hs. simpl in Hs.
        destruct (Supabase.error r) as [e|]; simpl.
        -- right. exists e. split; congruence.
        -- destruct (Hs eq_refl) as [rows ->]. by left.
    + sb_call (Postgrest.rest_delete j) w; simpl.
      * right. exists e. split; congruence.
      * pose proof (delete_sound j (db w) (now (oracle w (calls w)))) as Hs.
        rewrite Hstmt in Hs. simpl in Hs.
        destruct (Supabase.error r) as [e|]; simpl.
        -- right. exists e. split; congruence.
        -- destruct (Hs eq_refl) as [rows ->]. by left.
Qed.

(** ** Pages *)

Lemma concat_slices {A} (l : list A) (k : nat) :
  (length l <= 10 * k)%nat ->
  concat ((fun i => take 10 (drop (10 * i) l)) <$> seq 0 k) = l.
Proof.
  revert l. induction k as [|k IH]; intros l Hlen.
  - destruct l; [done | simpl in Hlen; lia].
  - rewrite <- cons_seq, <- fmap_S_seq, fmap_cons, <- list_fmap_compose. simpl concat.
    rewrite drop_0.
    rewrite (list_fmap_ext _ (fun i => take 10 (drop (10 * i) (drop 10 l))) (seq 0 k)).
    + rewrite IH; [apply take_drop|]. rewrite length_drop. lia.
    + intros _ i _. simpl. rewrite drop_drop. do 2 f_equal. lia.
Qed.

Lemma page_of_page_request (p : Z) : p ≠ 0 -> page_of (page_request p) = p.
Proof.
  intros Hp. unfold page_of, page_request. simpl.
  rewrite parseInt_int8_out. simpl. destruct (p =? 0) eqn:E; lia.
Qed.

Lemma sorted_strictly (l : list Client) :
  StronglySorted created_desc l -> NoDup (created_at <$> l) ->
  StronglySorted newer_first l.
Proof.
  induction 1 as [|a l Hs IH Hall]; [constructor|].
  rewrite fmap_cons. intros Hnd. apply NoDup_cons in Hnd as (Hnotin & Hnd).
  constructor; [by apply IH|].
  apply Forall_forall. intros x Hx.
  rewrite Forall_forall in Hall. specialize (Hall x Hx).
  unfold created_desc in Hall. unfold newer_first.
  assert (created_at x ≠ created_at a).
  { intros Heq. apply Hnotin. rewrite <- Heq. apply list_elem_of_fmap. eauto. }
  lia.
Qed.

Lemma pages_concat (w : World) :
  fault (oracle w (calls w)) = None ->
  fault (oracle w (S (calls w))) = None ->
  Z.of_nat (length (table (db w))) <= 9223372036854775807 ->
  concat ((fun p => data_of (Pg.get_clients (page_request (Z.of_nat p)) w).1)
            <$> seq 1 (Z.to_nat (JS.ceil_div (Z.of_nat (length (table (db w)))) 10)))
  = order_by_created_at_desc (table (db w)).
Proof.
  intros Hf1 Hf2 Hmax.
  set (n := Z.of_nat (length (table (db w)))) in *.
  pose proof (ceil_div_bounds n 10 ltac:(lia)) as Hceil.
  set (k := Z.to_nat (JS.ceil_div n 10)).
  assert (Hk : Z.of_nat k = JS.ceil_div n 10) by (unfold k; lia).
  rewrite <- fmap_S_seq, <- list_fmap_compose.
  rewrite (list_fmap_ext _
    (fun i => take 10 (drop (10 * i) (order_by_created_at_desc (table (db w)))))
    (seq 0 k)).
  - apply concat_slices. rewrite ordered_length. lia.
  - intros j i Hi. simpl.
    apply lookup_seq in Hi as (Hij & Hi). simpl in Hij. subst j.
    assert (Hpage : page_of (page_request (Z.of_nat (S i))) = Z.of_nat (S i))
      by (apply page_of_page_request; lia).
    rewrite get_clients_ok by (rewrite ?Hpage; auto; lia).
    simpl. rewrite Hpage. do 2 f_equal. lia.
Qed.

(** X12. In the pg variant the pages partition a table in which no two
    records have the same created_at: when the two storage calls of a
    list request meet no fault and the table has fewer than 2^53 records,
    the data of the pages 1 to totalPages, one after the other, are the
    records of the table, each once, in strictly descending order of
    created_at. *)
Theorem pg_pages_partition (w : World) :
  NoDup (created_at <$> table (db w)) ->
  fault (oracle w (calls w)) = None ->
  fault (oracle w (S (calls w))) = None ->
  Z.of_nat (length (table (db w))) <= 9007199254740991 ->
  concat ((fun p => data_of (Pg.get_clients (page_request (Z.of_nat p)) w).1)
            <$> seq 1 (Z.to_nat (JS.ceil_div (Z.of_nat (length (table (db w)))) 10)))
    ≡ₚ table (db w) /\
  StronglySorted newer_first
    (concat ((fun p => data_of (Pg.get_clients (page_request (Z.of_nat p)) w).1)
               <$> seq 1 (Z.to_nat (JS.ceil_div (Z.of_nat (length (table (db w)))) 10)))).
Proof.
  intros Hnd Hf1 Hf2 Hmax.
  rewrite pages_concat by (auto; lia).
  split; [apply ordered_perm|].
  apply sorted_strictly; [apply ordered_sorted|].
  by rewrite ordered_perm.
Qed.

Lemma pg_pages_partition_witness :
  NoDup (created_at <$> table (db Sample.w11)) /\
  fault (oracle Sample.w11 (calls Sample.w11)) = None /\
  fault (oracle Sample.w11 (S (calls Sample.w11))) = None /\
  Z.of_nat (length (table (db Sample.w11))) <= 9007199254740991 /\
  concat ((fun p => data_of (Pg.get_clients (page_request (Z.of_nat p)) Sample.w11).1)
            <$> seq 1 (Z.to_nat (JS.ceil_div
                                   (Z.of_nat (length (table (db Sample.w11)))) 10)))
    ≡ₚ table (db Sample.w11) /\
  StronglySorted newer_first
    (concat ((fun p => data_of (Pg.get_clients (page_request (Z.of_nat p)) Sample.w11).1)
               <$> seq 1 (Z.to_nat (JS.ceil_div
                                      (Z.of_nat (length (table (db Sample.w11)))) 10)))).
Proof.
  assert (H0 : NoDup (created_at <$> table (db Sample.w11)))
    by (apply (bool_decide_unpack (NoDup _)); vm_compute; reflexivity).
  assert (H1 : fault (oracle Sample.w11 (calls Sample.w11)) = None) by reflexivity.
  assert (H2 : fault (oracle Sample.w11 (S (calls Sample.w11))) = None) by reflexivity.
  assert (H3 : Z.of_nat (length (table (db Sample.w11))) <= 9007199254740991)
    by (vm_compute; discriminate).
  split; [exact H0|]. split; [exact H1|]. split; [exact H2|]. split; [exact H3|].
  exact (pg_pages_partition Sample.w11 H0 H1 H2 H3).
Defined.

(** ** The gate, once more *)







(** ** The supabase handlers *)

(** X15. The supabase variant answers every request which reaches a
    handler with status 200 or 500, never 404, whatever its storage
    client does; and status 500 carries the fixed message of the route. *)
Theorem supabase_answers (api : Supabase.Client_API) (req : Request) (w : World) :
  exists r w',
    Supabase.handler (supabase := api) req w = (inr r, w') /\
    (status r = 200 \/
     (status r = 500 /\ payload r = BError (failure_message (route req)))).
Proof.
  unfold Supabase.handler.
  destruct (route req) as [| |j| |j|j];
    unfold Supabase.health, Supabase.get_clients, Supabase.get_client,
      Supabase.post_client, Supabase.put_client, Supabase.delete_client,
      Supabase.throw_if, Supabase.first_of; run;
    repeat (case_match; simplify_eq/=); eauto 10.
Qed.

(** X16. In the supabase variant, over a table answered as by PostgREST,
    a list request whose storage call does not fail is answered 200 with
    all the records of the table, each once, in descending order of
    created_at, whatever page is asked. *)
Theorem supabase_list_is_whole_table (req : Request) (w : World) :
  route req = ListClients ->
  fault (oracle w (calls w)) = None ->
  exists rows,
    (serve SupabaseServer req w).1 = inr (mkResponse 200 (BData (Some rows))) /\
    rows ≡ₚ table (db w) /\
    StronglySorted created_desc rows.
Proof.
  intros Hroute Hf. exists (order_by_created_at_desc (table (db w))).
  split; [|split; [apply ordered_perm | apply ordered_sorted]].
  simpl. unfold Supabase.handler. rewrite Hroute.
  unfold Supabase.get_clients, Supabase.throw_if. run. simpl.
  unfold Postgrest.call. by rewrite Hf.
Qed.

Lemma supabase_list_is_whole_table_witness :
  route (Sample.list_page "7") = ListClients /\
  fault (oracle Sample.w11 (calls Sample.w11)) = None /\
  exists rows,
    (serve SupabaseServer (Sample.list_page "7") Sample.w11).1
      = inr (mkResponse 200 (BData (Some rows))) /\
    rows ≡ₚ table (db Sample.w11) /\
    StronglySorted created_desc rows.
Proof.
  assert (H1 : route (Sample.list_page "7") = ListClients) by reflexivity.
  assert (H2 : fault (oracle Sample.w11 (calls Sample.w11)) = None) by reflexivity.
  split; [exact H1|]. split; [exact H2|].
  exact (supabase_list_is_whole_table _ Sample.w11 H1 H2).
Defined.

Lemma filter_unique (n : Z) (rows : list Client) (c : Client) :
  NoDup (id <$> rows) -> c ∈ rows -> id c = n ->
  filter (fun x => has_id n x = true) rows = [c].
Proof.
  intros Hnd Hc Hid. induction rows as [|x rows IH]; [by apply elem_of_nil in Hc|].
  rewrite fmap_cons in Hnd. apply NoDup_cons in Hnd as (Hx & Hnd).
  rewrite filter_cons. apply elem_of_cons in Hc as [<- | Hc].
  - rewrite decide_True by (unfold has_id; by apply bool_decide_eq_true).
    f_equal.
    destruct (filter _ rows) as [|y rest] eqn:Hf; [done|].
    assert (Hy : y ∈ filter (fun x => has_id n x = true) rows) by (rewrite Hf; left).
    apply list_elem_of_filter in Hy as (Hyid & Hy).
    unfold has_id in Hyid. apply bool_decide_eq_true in Hyid.
    destruct Hx. apply list_elem_of_fmap. exists y. split; [congruence | done].
  - rewrite decide_False; [by apply IH|].
    unfold has_id. intros Hx'. apply bool_decide_eq_true in Hx'.
    destruct Hx. apply list_elem_of_fmap. exists c. split; [congruence | done].
Qed.

(** X17. In the supabase variant, over a table answered as by PostgREST
    and with a storage call which does not fail, getting a client by an
    id which exactly one record has answers 200 with that record; getting
    by an id which no record has answers 500 with "Failed to fetch
    client", because a single row was asked for. *)
Theorem supabase_get_one_or_500 (i : string) (n : Z) (w : World) :
  pg_int4_in i = Some n ->
  fault (oracle w (calls w)) = None ->
  (forall c, NoDup (id <$> table (db w)) -> c ∈ table (db w) -> id c = n ->
     (Supabase.get_client (supabase := Postgrest.client) i w).1
       = inr (mkResponse 200 (BClient c))) /\
  (no_match i (db w) ->
     (Supabase.get_client (supabase := Postgrest.client) i w).1
       = inr (mkResponse 500 (BError "Failed to fetch client"))).
Proof.
  intros Hi Hf.
  unfold Supabase.get_client, Supabase.throw_if. run. simpl.
  unfold Postgrest.call, Postgrest.rest_select_single. rewrite Hf, Hi.
  split.
  - intros c Hnd Hc Hid. by rewrite (filter_unique n _ c).
  - intros Hno. by rewrite (no_match_filter i n).
Qed.

Lemma supabase_get_one_or_500_witness :
  pg_int4_in "12" = Some 12 /\
  fault (oracle Sample.w11 (calls Sample.w11)) = None /\
  no_match "12" (db Sample.w11) /\
  (Supabase.get_client (supabase := Postgrest.client) "12" Sample.w11).1
    = inr (mkResponse 500 (BError "Failed to fetch client")).
Proof.
  assert (H1 : pg_int4_in "12" = Some 12) by reflexivity.
  assert (H2 : fault (oracle Sample.w11 (calls Sample.w11)) = None) by reflexivity.
  split; [exact H1|]. split; [exact H2|]. split; [exact no_match_12|].
  exact (proj2 (supabase_get_one_or_500 "12" 12 Sample.w11 H1 H2) no_match_12).
Defined.

(** X18. In the supabase variant, over a table answered as by PostgREST
    and with a storage call which does not fail, deleting by an id which
    no record has is answered 200 with the message of success and no
    client, and the table is left as it was. *)
Theorem supabase_delete_missing_200 (i : string) (n : Z) (w : World) :
  pg_int4_in i = Some n ->
  no_match i (db w) ->
  fault (oracle w (calls w)) = None ->
  (Supabase.delete_client (supabase := Postgrest.client) i w).1
    = inr (mkResponse 200 (BMessage "✅ Client deleted successfully" None)) /\
  table (db (Supabase.delete_client (supabase := Postgrest.client) i w).2)
    = table (db w).
Proof.
  intros Hi Hno Hf.
  unfold Supabase.delete_client, Supabase.throw_if, Supabase.first_of. run. simpl.
  unfold Postgrest.call, Postgrest.rest_delete. rewrite Hf, Hi. simpl.
  rewrite (no_match_filter i n) by done. simpl. split; [done|].
  apply delete_no_hit. by apply (no_match_filter i n).
Qed.

Lemma supabase_delete_missing_200_witness :
  pg_int4_in "12" = Some 12 /\
  no_match "12" (db Sample.w11) /\
  fault (oracle Sample.w11 (calls Sample.w11)) = None /\
  (Supabase.delete_client (supabase := Postgrest.client) "12" Sample.w11).1
    = inr (mkResponse 200 (BMessage "✅ Client deleted successfully" None)) /\
  table (db (Supabase.delete_client (supabase := Postgrest.client) "12" Sample.w11).2)
    = table (db Sample.w11).
Proof.
  assert (H1 : pg_int4_in "12" = Some 12) by reflexivity.
  assert (H3 : fault (oracle Sample.w11 (calls Sample.w11)) = None) by reflexivity.
  split; [exact H1|]. split; [exact no_match_12|]. split; [exact H3|].
  exact (supabase_delete_missing_200 "12" 12 Sample.w11 H1 no_match_12 H3).
Defined.

(** ** Startup helpers *)

(** X19. createTable of the pg variant never throws, whatever its
    CREATE TABLE statement does to the database: it makes one storage
    call and prints one line, that the table is ready when the call
    succeeded, and the error with its detail when the call failed; in
    both cases the database is the one the storage call left. *)
Theorem createTable_never_throws (ddl : Pg.Stmt unit) (w : World) :
  (Boot.createTable ddl w).1 = inr tt /\
  calls (Boot.createTable ddl w).2 = S (calls w) /\
  (forall w1,
     Pg.pool_query ddl w = (inr tt, w1) ->
     (Boot.createTable ddl w).2 = print "✅ Clients table ready" w1) /\
  (forall e w1,
     Pg.pool_query ddl w = (inl e, w1) ->
     (Boot.createTable ddl w).2 =
       print ("❌ Error creating table:" ++ " " ++ e)%string w1).
Proof.
  unfold Boot.createTable, Boot.console_log. run.
  destruct (pool_query_outcome ddl w)
    as (w1 & Hcalls & _ & _ & [([] & -> & _) | (e & -> & _)]); simpl.
  - repeat split; [done| |]; [by intros ? [= <-] | by intros ? ? [=]].
  - repeat split; [done| |]; [by intros ? [=] | by intros ? ? [= <- <-]].
Qed.

Lemma createTable_never_throws_witness :
  Pg.pool_query More.ddl_denied Sample.w11 =
    (inl "permission denied for schema public",
     (Pg.pool_query More.ddl_denied Sample.w11).2) /\
  (Boot.createTable More.ddl_denied Sample.w11).1 = inr tt /\
  (Boot.createTable More.ddl_denied Sample.w11).2 =
    print "❌ Error creating table: permission denied for schema public"
      (Pg.pool_query More.ddl_denied Sample.w11).2.
Proof.
  assert (H : Pg.pool_query More.ddl_denied Sample.w11 =
    (inl "permission denied for schema public",
     (Pg.pool_query More.ddl_denied Sample.w11).2)) by (vm_compute; reflexivity).
  split; [exact H|].
  split; [exact (proj1 (createTable_never_throws More.ddl_denied Sample.w11))|].
  exact (proj2 (proj2 (proj2 (createTable_never_throws More.ddl_denied Sample.w11)))
           _ _ H).
Defined.

(** X20. createClientsTable of the supabase variant does not look at
    the reply of its probe: when the probe resolves, even to a reply
    which carries an error, the function prints that the table is ready;
    it prints an error only when the probe is rejected. It never throws. *)
Theorem createClientsTable_ignores_reply
    (probe : M (Supabase.Result (list Client))) (w : World) :
  (Boot.createClientsTable probe w).1 = inr tt /\
  (forall r w1,
     probe w = (inr r, w1) ->
     (Boot.createClientsTable probe w).2 = print "✅ Clients table ready" w1) /\
  (forall e w1,
     probe w = (inl e, w1) ->
     (Boot.createClientsTable probe w).2 =
       print ("❌ Error accessing Clients table:" ++ " " ++ e)%string w1).
Proof.
  unfold Boot.createClientsTable, Boot.console_log. run.
  destruct (probe w) as [[e|r] w1]; simpl; repeat split; by intros ? ? [= <- <-].
Qed.

Lemma createClientsTable_ignores_reply_witness :
  More.probe_error Sample.w11 =
    (inr (Postgrest.failed "relation does not exist"),
     (More.probe_error Sample.w11).2) /\
  (Boot.createClientsTable More.probe_error Sample.w11).2 =
    print "✅ Clients table ready" (More.probe_error Sample.w11).2.
Proof.
  assert (H : More.probe_error Sample.w11 =
    (inr (Postgrest.failed "relation does not exist"),
     (More.probe_error Sample.w11).2)) by (vm_compute; reflexivity).
  split; [exact H|].
  exact (proj1 (proj2 (createClientsTable_ignores_reply More.probe_error Sample.w11))
           _ _ H).
Defined.

(** ** More on pages and counts *)

Lemma scan_uint_then (d : Decimal.uint) (acc : Z) (rest : string) :
  ends_number rest = true ->
  JS.scan_digits 10 (NilEmpty.string_of_uint d ++ rest) acc true
  = (Some (uint_value d acc), rest).
Proof.
  intros Hrest. revert acc.
  induction d; intros acc; [|simpl; apply IHd ..].
  simpl. destruct rest as [|c rest]; [done|]. simpl in *.
  apply andb_prop in Hrest as (_ & Hrest).
  destruct (JS.digit_value c) as [v|]; [|done].
  assert ((v <? 10) = false) as -> by (apply Z.ltb_ge; by apply Z.leb_le). done.
Qed.

Lemma hex_prefix_absent (d : Decimal.uint) (rest : string) :
  ends_number rest = true ->
  JS.strip_hex_prefix (NilEmpty.string_of_uint d ++ rest)
  = (10, (NilEmpty.string_of_uint d ++ rest)%string).
Proof.
  intros Hrest.
  assert (Hx : forall s, ends_number s = true ->
            JS.strip_hex_prefix (String "0" s) = (10, String "0" s)).
  { intros [|c s] Hs; [done|]. simpl in Hs.
    apply andb_prop in Hs as (Hs & _). apply andb_prop in Hs as (Hx1 & Hx2).
    apply negb_true_iff, Ascii.eqb_neq in Hx1.
    apply negb_true_iff, Ascii.eqb_neq in Hx2.
    unfold JS.strip_hex_prefix.
    destruct c as [[|] [|] [|] [|] [|] [|] [|] [|]]; try reflexivity; congruence. }
  destruct d as [|l|l|l|l|l|l|l|l|l|l]; simpl.
  - destruct rest as [|c rest]; [done|]. simpl in Hrest.
    apply andb_prop in Hrest as (_ & Hd).
    unfold JS.strip_hex_prefix.
    destruct c as [[|] [|] [|] [|] [|] [|] [|] [|]]; try reflexivity;
      vm_compute in Hd; discriminate.
  - destruct l; simpl; try reflexivity. by apply Hx.
  - reflexivity.
  - reflexivity.
  - reflexivity.
  - reflexivity.
  - reflexivity.
  - reflexivity.
  - reflexivity.
  - reflexivity.
  - reflexivity.
Qed.

Lemma parseInt_prefix (n : Z) (suffix : string) :
  ends_number suffix = true ->
  JS.parseInt_string (int8_out n ++ suffix) = JS.Int n.
Proof.
  intros Hs.
  assert (Hpos : forall p,
    JS.scan_digits 10 (NilEmpty.string_of_uint (Pos.to_uint p) ++ suffix) 0 false
    = (Some (Z.pos p), suffix)).
  { intros p. pose proof (to_uint_not_nil p) as Hnil.
    change (Z.pos p) with (Z.of_N (N.pos p)).
    rewrite <- (DecimalPos.Unsigned.of_to p), <- uint_value_0.
    destruct (Pos.to_uint p); [done|..]; simpl; by apply scan_uint_then. }
  destruct n as [|p|p].
  - change (int8_out 0 ++ suffix)%string with (String "0" suffix).
    unfold JS.parseInt_string.
    change (JS.strip_sign (JS.trim_start (String "0" suffix)))
      with (1, String "0" suffix). cbv beta iota.
    pose proof (hex_prefix_absent (D0 Nil) suffix Hs) as Hh.
    change (JS.strip_hex_prefix (String "0" suffix) = (10, String "0" suffix)) in Hh.
    rewrite Hh.
    pose proof (scan_uint_then (D0 Nil) 0 suffix Hs) as Hsc.
    change (JS.scan_digits 10 (String "0" suffix) 0 false)
      with (JS.scan_digits 10 (NilEmpty.string_of_uint (D0 Nil) ++ suffix) 0 true).
    by rewrite Hsc.
  - change (int8_out (Z.pos p) ++ suffix)%string
      with (NilEmpty.string_of_uint (Pos.to_uint p) ++ suffix)%string.
    unfold JS.parseInt_string.
    assert (JS.strip_sign (JS.trim_start
              (NilEmpty.string_of_uint (Pos.to_uint p) ++ suffix))
            = (1, (NilEmpty.string_of_uint (Pos.to_uint p) ++ suffix)%string)) as ->.
    { pose proof (to_uint_not_nil p). by destruct (Pos.to_uint p). }
    rewrite hex_prefix_absent, Hpos by done. cbn [fst]. f_equal; lia.
  - change (int8_out (Z.neg p) ++ suffix)%string
      with (String "-" (NilEmpty.string_of_uint (Pos.to_uint p) ++ suffix)).
    unfold JS.parseInt_string.
    change (JS.strip_sign (JS.trim_start
              (String "-" (NilEmpty.string_of_uint (Pos.to_uint p) ++ suffix))))
      with (-1, (NilEmpty.string_of_uint (Pos.to_uint p) ++ suffix)%string).
    cbv beta iota.
    rewrite hex_prefix_absent, Hpos by done. cbn [fst]. f_equal; lia.
Qed.

(** X21. In the pg variant the page is read by its leading number: a
    page parameter made of the decimal text of an integer followed by
    anything which starts with neither a digit nor an x is handled
    exactly as that integer alone, so "2abc" and "2.5" ask for page 2. *)
Theorem pg_page_read_by_prefix (p : Z) (suffix : string) (w : World) :
  ends_number suffix = true ->
  Pg.get_clients (page_request_with p suffix) w = Pg.get_clients (page_request p) w.
Proof.
  intros Hs. apply get_clients_page_only. unfold page_of. simpl.
  by rewrite parseInt_prefix, parseInt_int8_out.
Qed.

Lemma pg_page_read_by_prefix_witness :
  ends_number "abc" = true /\
  Pg.get_clients (page_request_with 2 "abc") Sample.w11
    = Pg.get_clients (page_request 2) Sample.w11.
Proof.
  assert (H : ends_number "abc" = true) by reflexivity.
  split; [exact H | exact (pg_page_read_by_prefix 2 "abc" Sample.w11 H)].
Defined.

Lemma insert_count (f : Pg.Fields) (d d' : Db) (t : Z) r :
  Pg.sql_insert f d t = (r, d') ->
  match r with
  | inr _ => length (table d') = S (length (table d))
  | inl _ => table d' = table d
  end.
Proof.
  unfold Pg.sql_insert. case_match; intros [= <- <-]; simpl; try done;
    rewrite length_app; simpl; lia.
Qed.

Lemma update_count (f : Pg.Fields) (i : string) (d d' : Db) (t : Z) r :
  Pg.sql_update f i d t = (r, d') -> length (table d') = length (table d).
Proof.
  unfold Pg.sql_update. repeat case_match; intros [= <- <-]; simpl; try done;
    by rewrite length_fmap.
Qed.

Lemma delete_count (i : string) (d d' : Db) (t : Z) r :
  Pg.sql_delete i d t = (r, d') -> (length (table d') <= length (table d))%nat.
Proof.
  unfold Pg.sql_delete. case_match; intros [= <- <-]; simpl; [|done].
  apply length_filter.
Qed.

(** X22. In the pg variant the number of records grows only by a
    creation answered 200, which adds exactly one, and shrinks only by a
    deletion: a creation is answered 200 or 500, the latter adding
    nothing, and list, get, update and health requests leave the number
    of records as it was, whatever their storage calls do. *)
Theorem pg_record_count (req : Request) (w : World) :
  let before := length (table (db w)) in
  let after := length (table (db (Pg.handler req w).2)) in
  match route req with
  | CreateClient =>
      (exists b, (Pg.handler req w).1 = inr (mkResponse 200 b) /\ after = S before) \/
      (exists b, (Pg.handler req w).1 = inr (mkResponse 500 b) /\ after = before)
  | DeleteClient _ => (after <= before)%nat
  | _ => after = before
  end.
Proof.
  simpl. unfold Pg.handler.
  destruct (route req) as [| |j| |j|j].
  - done.
  - unfold Pg.get_clients. run. pg_call w.
    + apply select_page_reads in Hstmt. pg_call w1; simpl.
      * apply count_reads in Hstmt0. congruence.
      * destruct Hstmt0 as [? | Hs]; [congruence|].
        apply count_reads in Hs. congruence.
    + simpl. destruct Hstmt as [? | Hs]; [congruence|].
      apply select_page_reads in Hs. congruence.
  - unfold Pg.get_client. run. pg_call w.
    + apply select_by_id_reads in Hstmt. destruct rows; simpl; congruence.
    + simpl. destruct Hstmt as [? | Hs]; [congruence|].
      apply select_by_id_reads in Hs. congruence.
  - unfold Pg.post_client. run. pg_call w.
    + left. eexists. split; [reflexivity|]. simpl.
      by apply insert_count in Hstmt.
    + right. eexists. split; [reflexivity|]. simpl.
      destruct Hstmt as [? | Hs]; [congruence|].
      apply insert_count in Hs. congruence.
  - unfold Pg.put_client. run. pg_call w.
    + apply update_count in Hstmt. by destruct rows.
    + simpl. destruct Hstmt as [? | Hs]; [congruence|].
      by apply update_count in Hs.
  - unfold Pg.delete_client. run. pg_call w.
    + apply delete_count in Hstmt. by destruct rows.
    + simpl. destruct Hstmt as [-> | Hs]; [done|].
      by apply delete_count in Hs.
Qed.
